(** * Reborncloud Groq Bot: the model-listing and chat relay endpoints

    A shallow embedding of the server-side logic of the repository:
    - [types/openai.ts]   : the [OpenAIModel] record, the [OpenAIModelID] enum
                            and the [OpenAIModels] table;
    - [utils/app/const.ts]: [OPENAI_API_HOST];
    - [pages/api/models.ts]: the [/api/models] handler;
    - the [/api/chat] relay, whose file is not part of the sources and is
      modelled from the written specification and the snippets of
      [PROJECT_STRUCTURE.md].

    JavaScript values that the handler inspects dynamically (the upstream
    JSON, typed [any] in the source) are modelled as JSON trees together with
    the places where property access or a method call throws. *)

From Stdlib Require Import String Ascii List ZArith NArith Bool Lia.
Import ListNotations.

Local Open Scope string_scope.
Local Open Scope Z_scope.
Local Open Scope list_scope.
Set Warnings "-register-all".

(* ================================================================== *)
(** ** JavaScript values and completions *)

Module Js.

(** A value produced by [JSON.parse].  Objects keep their properties in
    insertion order, as [JSON.stringify] prints them.  The handler only
    tests numbers for truthiness and only prints the integer constants of
    its own tables, so numbers are integers here. *)
Inductive json : Type :=
| JNull
| JBool (b : bool)
| JNum (n : Z)
| JStr (s : string)
| JArr (items : list json)
| JObj (props : list (string * json)).

(** What a [throw] carries.  [NetworkError] is a rejected [fetch]. *)
Inductive exn : Type :=
| TypeError
| SyntaxError
| NetworkError
| Error (message : string)
| OpenAIError (message : string).

(** The completion of an expression: a value, or a thrown exception. *)
Inductive completion (A : Type) : Type :=
| Normal (a : A)
| Throw (e : exn).
Arguments Normal {A} a.
Arguments Throw {A} e.

Definition cbind {A B} (c : completion A) (k : A -> completion B)
  : completion B :=
  match c with
  | Normal a => k a
  | Throw e => Throw e
  end.

(** Own property of a parsed object; of duplicate keys the last one wins. *)
Fixpoint own_prop (k : string) (props : list (string * json)) : option json :=
  match props with
  | [] => None
  | (k', v) :: rest =>
      match own_prop k rest with
      | Some w => Some w
      | None => if String.eqb k k' then Some v else None
      end
  end.

(** [v.k] for the property names the handler reads ([id], [data]), none of
    which exists on a prototype: [None] is [undefined]; reading a property
    of [null] throws. *)
Definition get_prop (v : json) (k : string) : completion (option json) :=
  match v with
  | JNull => Throw TypeError
  | JObj props => Normal (own_prop k props)
  | _ => Normal None
  end.

(** ToBoolean. *)
Definition truthy (v : option json) : bool :=
  match v with
  | None => false
  | Some JNull => false
  | Some (JBool b) => b
  | Some (JNum n) => negb (n =? 0)
  | Some (JStr s) => negb (String.eqb s "")
  | Some (JArr _) => true
  | Some (JObj _) => true
  end.

(** [v === s] for a string [s]. *)
Definition strict_eq_string (v : option json) (s : string) : bool :=
  match v with
  | Some (JStr t) => String.eqb t s
  | _ => false
  end.

(** [String.prototype.includes]. *)
Fixpoint includes (s needle : string) : bool :=
  String.prefix needle s
  || match s with
     | EmptyString => false
     | String _ rest => includes rest needle
     end.

(** [recv.includes(needle)]: strings search a substring, arrays search an
    element; every other receiver has no callable [includes]. *)
Definition call_includes (recv : option json) (needle : string)
  : completion bool :=
  match recv with
  | Some (JStr s) => Normal (includes s needle)
  | Some (JArr items) =>
      Normal (existsb (fun x => strict_eq_string (Some x) needle) items)
  | _ => Throw TypeError
  end.

(** The regular-expression class [\w]. *)
Definition is_word_char (c : ascii) : bool :=
  let n := N_of_ascii c in
  ((48 <=? n) && (n <=? 57) || (65 <=? n) && (n <=? 90)
   || (97 <=? n) && (n <=? 122) || (n =? 95))%N.

(** [toUpperCase] on one character matched by [\w]. *)
Definition to_upper (c : ascii) : ascii :=
  let n := N_of_ascii c in
  if ((97 <=? n) && (n <=? 122))%N then ascii_of_N (n - 32) else c.

(** [s.replace(/-/g, ' ')]. *)
Fixpoint replace_dashes (s : string) : string :=
  match s with
  | EmptyString => EmptyString
  | String c rest =>
      String (if Ascii.eqb c "-"%char then " "%char else c)
             (replace_dashes rest)
  end.

(** [s.replace(/\b\w/g, l => l.toUpperCase())]: a word character is
    rewritten when the character before it is not a word character. *)
Fixpoint capitalize_from (prev_is_word : bool) (s : string) : string :=
  match s with
  | EmptyString => EmptyString
  | String c rest =>
      String (if is_word_char c && negb prev_is_word then to_upper c else c)
             (capitalize_from (is_word_char c) rest)
  end.

Definition capitalize_words (s : string) : string := capitalize_from false s.

(** [recv.replace(...)] exists on strings only. *)
Definition call_replace_chain (recv : option json) : completion string :=
  match recv with
  | Some (JStr s) => Normal (capitalize_words (replace_dashes s))
  | _ => Throw TypeError
  end.

(** [Array.prototype.some], [filter] and [map] with a callback that may
    throw: elements are visited left to right, [some] stops at the first
    hit. *)
Fixpoint array_some (f : json -> completion bool) (items : list json)
  : completion bool :=
  match items with
  | [] => Normal false
  | x :: rest =>
      cbind (f x) (fun hit => if hit then Normal true else array_some f rest)
  end.

Fixpoint array_filter (f : json -> completion bool) (items : list json)
  : completion (list json) :=
  match items with
  | [] => Normal []
  | x :: rest =>
      cbind (f x) (fun keep =>
      cbind (array_filter f rest) (fun kept =>
      Normal (if keep then x :: kept else kept)))
  end.

Fixpoint array_map {A} (f : json -> completion A) (items : list json)
  : completion (list A) :=
  match items with
  | [] => Normal []
  | x :: rest =>
      cbind (f x) (fun y =>
      cbind (array_map f rest) (fun ys => Normal (y :: ys)))
  end.

(** [recv.some(...)] and [recv.filter(...)]: only arrays have them. *)
Definition call_some (recv : json) (f : json -> completion bool)
  : completion bool :=
  match recv with
  | JArr items => array_some f items
  | _ => Throw TypeError
  end.

Definition call_filter (recv : json) (f : json -> completion bool)
  : completion (list json) :=
  match recv with
  | JArr items => array_filter f items
  | _ => Throw TypeError
  end.

(** Template-literal rendering of an environment variable. *)
Definition render (v : option string) : string :=
  match v with
  | Some s => s
  | None => "undefined"
  end.

End Js.
Export Js.

(* ================================================================== *)
(** ** The computation monad of a handler: exceptions and a log of the
       requests sent upstream *)

Module Handler.

(** An HTTP body: [Json j] is text that parses to [j]; [Text s] is any
    text that [response.json()] rejects (or that nobody parses).  The
    [headers] of a response are the ones given to its constructor; the
    content type that the runtime adds by itself is not represented. *)
Inductive Body : Type :=
| Text (s : string)
| Json (j : json).

Record Response : Type := mkResponse {
  status : Z;
  statusText : string;
  headers : list (string * string);
  body : Body
}.

Section Monad.
(** [Req] is the type of an upstream request. *)
Variable Req : Type.

Definition M (A : Type) : Type := list Req -> list Req * completion A.

Definition ret {A} (a : A) : M A := fun log => (log, Normal a).

Definition throw {A} (e : exn) : M A := fun log => (log, Throw e).

Definition bind {A B} (m : M A) (k : A -> M B) : M B :=
  fun log =>
    match m log with
    | (log', Normal a) => k a log'
    | (log', Throw e) => (log', Throw e)
    end.

Definition lift {A} (c : completion A) : M A := fun log => (log, c).

Definition try_catch {A} (m : M A) (handle : exn -> M A) : M A :=
  fun log =>
    match m log with
    | (log', Normal a) => (log', Normal a)
    | (log', Throw e) => handle e log'
    end.

(** [await fetch(rq)] against the network [net]. *)
Definition fetch (net : Req -> completion Response) (rq : Req)
  : M Response :=
  fun log => ((log ++ [rq])%list, net rq).
End Monad.

Arguments ret {Req A} a.
Arguments throw {Req A} e.
Arguments bind {Req A B} m k.
Arguments lift {Req A} c.
Arguments try_catch {Req A} m handle.
Arguments fetch {Req} net rq.

(** [await response.json()]. *)
Definition response_json (r : Response) : completion json :=
  match body r with
  | Json j => Normal j
  | Text _ => Throw SyntaxError
  end.

End Handler.
Export Handler.

Notation "x <- m ;; k" := (bind m (fun x => k))
  (at level 61, m at next level, right associativity).
Notation "'let!' x := c 'in' k" := (cbind c (fun x => k))
  (at level 61, x name, c at next level, right associativity).

(* ================================================================== *)
(** ** [types/openai.ts] *)

Record OpenAIModel : Type := mkModel {
  id : string;
  name : string;
  maxLength : Z;
  tokenLimit : Z
}.

Inductive OpenAIModelID : Type :=
| GPT_3_5
| GPT_4
| LLAMA_3_1_8B
| LLAMA_3_3_70B
| GEMMA2_9B
| COMPOUND_BETA.

(** The string value of an enum member. *)
Definition OpenAIModelID_value (m : OpenAIModelID) : string :=
  match m with
  | GPT_3_5 => "gpt-3.5-turbo"
  | GPT_4 => "gpt-4"
  | LLAMA_3_1_8B => "llama-3.1-8b-instant"
  | LLAMA_3_3_70B => "llama-3.3-70b-versatile"
  | GEMMA2_9B => "gemma2-9b-it"
  | COMPOUND_BETA => "compound-beta"
  end.

(** [Object.entries(OpenAIModelID)], in declaration order. *)
Definition OpenAIModelID_entries : list (string * OpenAIModelID) :=
  [ ("GPT_3_5", GPT_3_5); ("GPT_4", GPT_4); ("LLAMA_3_1_8B", LLAMA_3_1_8B);
    ("LLAMA_3_3_70B", LLAMA_3_3_70B); ("GEMMA2_9B", GEMMA2_9B);
    ("COMPOUND_BETA", COMPOUND_BETA) ].

Definition fallbackModelID : OpenAIModelID := LLAMA_3_1_8B.

(** The table is a [Record<OpenAIModelID, OpenAIModel>]: total on the enum. *)
Definition OpenAIModels (m : OpenAIModelID) : OpenAIModel :=
  match m with
  | GPT_3_5 =>
      {| id := OpenAIModelID_value GPT_3_5; name := "GPT-3.5";
         maxLength := 12000; tokenLimit := 4000 |}
  | GPT_4 =>
      {| id := OpenAIModelID_value GPT_4; name := "GPT-4";
         maxLength := 24000; tokenLimit := 8000 |}
  | LLAMA_3_1_8B =>
      {| id := OpenAIModelID_value LLAMA_3_1_8B; name := "Llama 3.1 8B (Fast)";
         maxLength := 120000; tokenLimit := 131072 |}
  | LLAMA_3_3_70B =>
      {| id := OpenAIModelID_value LLAMA_3_3_70B;
         name := "Llama 3.3 70B (Powerful)";
         maxLength := 120000; tokenLimit := 131072 |}
  | GEMMA2_9B =>
      {| id := OpenAIModelID_value GEMMA2_9B; name := "Gemma 2 9B";
         maxLength := 24000; tokenLimit := 8192 |}
  | COMPOUND_BETA =>
      {| id := OpenAIModelID_value COMPOUND_BETA;
         name := "Compound Beta (Groq)";
         maxLength := 120000; tokenLimit := 131072 |}
  end.

(** [JSON.stringify] of one model: the four properties in literal order. *)
Definition model_to_json (m : OpenAIModel) : json :=
  JObj [ ("id", JStr (id m)); ("name", JStr (name m));
         ("maxLength", JNum (maxLength m));
         ("tokenLimit", JNum (tokenLimit m)) ].

(* ================================================================== *)
(** ** [utils/app/const.ts] *)

Record Env : Type := mkEnv {
  env_OPENAI_API_KEY : option string;
  env_OPENAI_ORGANIZATION : option string;
  env_OPENAI_API_HOST : option string
}.

(** [a || b] on an environment variable: unset and empty are falsy. *)
Definition env_or (v : option string) (default : string) : string :=
  match v with
  | Some s => if String.eqb s "" then default else s
  | None => default
  end.

Definition OPENAI_API_HOST (env : Env) : string :=
  env_or (env_OPENAI_API_HOST env) "https://api.openai.com".

(** [DEFAULT_MODEL] and [DEFAULT_SYSTEM_PROMPT], as functions of the value of
    the environment variable of the same name. *)
Definition DEFAULT_MODEL (v : option string) : string :=
  env_or v "llama-3.1-8b-instant".

Definition DEFAULT_SYSTEM_PROMPT (v : option string) : string :=
  env_or v "You are a helpful AI assistant. Follow the user's instructions carefully. Respond using markdown.".

(* ================================================================== *)
(** ** [pages/api/models.ts] *)

Module ModelsApi.

(** The upstream request of [fetch(url, { headers })]. *)
Record UpstreamRequest : Type := mkUpstreamRequest {
  url : string;
  request_headers : list (string * string)
}.

(** The body of the incoming request, cast by the source to
    [{ key: string }]: [Malformed] is a body on which [req.json()] or the
    destructuring throws; [key = None] is an absent key. *)
Inductive RequestBody : Type :=
| Malformed
| KeyBody (key : option string).

(** [const { key } = await req.json()]. *)
Definition request_key (req : RequestBody) : completion (option string) :=
  match req with
  | Malformed => Throw SyntaxError
  | KeyBody key => Normal key
  end.

(** [key ? key : process.env.OPENAI_API_KEY], rendered in the template. *)
Definition bearer_token (env : Env) (key : option string) : string :=
  match key with
  | Some k => if String.eqb k "" then render (env_OPENAI_API_KEY env) else k
  | None => render (env_OPENAI_API_KEY env)
  end.

(** [...(process.env.OPENAI_ORGANIZATION && { 'OpenAI-Organization': ... })] *)
Definition organization_header (env : Env) : list (string * string) :=
  match env_OPENAI_ORGANIZATION env with
  | Some org =>
      if String.eqb org "" then [] else [("OpenAI-Organization", org)]
  | None => []
  end.

Definition upstream_request (env : Env) (key : option string)
  : UpstreamRequest :=
  {| url := (OPENAI_API_HOST env ++ "/v1/models")%string;
     request_headers :=
       ([ ("Content-Type", "application/json");
          ("Authorization", ("Bearer " ++ bearer_token env key)%string) ]
        ++ organization_header env)%list |}.

(** [json.data || json] *)
Definition models_data (j : json) : completion json :=
  let! data := get_prop j "data" in
  Normal (match data with
          | Some d => if truthy data then d else j
          | None => j
          end).

(** [modelsData.some((model) => model.id === value)] *)
Definition model_exists (modelsData : json) (value : string)
  : completion bool :=
  call_some modelsData
    (fun model =>
       let! i := get_prop model "id" in Normal (strict_eq_string i value)).

(** The loop over [Object.entries(OpenAIModelID)]; [OpenAIModels[value]]
    is an object for every enum value, hence truthy. *)
Fixpoint predefined_loop (entries : list (string * OpenAIModelID))
    (modelsData : json) (models : list OpenAIModel)
  : completion (list OpenAIModel) :=
  match entries with
  | [] => Normal models
  | (_, value) :: rest =>
      let! modelExists := model_exists modelsData (OpenAIModelID_value value) in
      predefined_loop rest modelsData
        (if modelExists then (models ++ [OpenAIModels value])%list
         else models)
  end.

(** The callback of [filter]: a short-circuit chain of [||]. *)
Definition is_available (model : json) : completion bool :=
  let id_includes needle :=
    let! i := get_prop model "id" in call_includes i needle in
  let! a := id_includes "llama" in
  if a then Normal true else
  let! b := id_includes "gemma" in
  if b then Normal true else
  let! c := id_includes "compound" in
  if c then Normal true else
  id_includes "gpt".

(** The callback of [map].  The [id] of the result is [model.id] itself;
    it is a string whenever [replace] did not throw. *)
Definition dynamic_model (model : json) : completion OpenAIModel :=
  let! i := get_prop model "id" in
  let! n := call_replace_chain i in
  match i with
  | Some (JStr s) =>
      Normal {| id := s; name := n; maxLength := 120000;
                tokenLimit := 131072 |}
  | _ => Throw TypeError
  end.

(** [modelsData.filter(...).slice(0, 5).map(...)] *)
Definition available_models (modelsData : json)
  : completion (list OpenAIModel) :=
  let! filtered := call_filter modelsData is_available in
  array_map dynamic_model (firstn 5 filtered).

(** Everything between [response.json()] and the final [Response]. *)
Definition list_models (j : json) : completion (list OpenAIModel) :=
  let! modelsData := models_data j in
  let! models := predefined_loop OpenAIModelID_entries modelsData [] in
  if (length models =? 0)%nat then
    let! availableModels := available_models modelsData in
    Normal (models ++ availableModels)%list
  else Normal models.

Definition fallbackModels : list OpenAIModel :=
  [ {| id := "llama-3.1-8b-instant"; name := "Llama 3.1 8B (Fast)";
       maxLength := 120000; tokenLimit := 131072 |};
    {| id := "llama-3.3-70b-versatile"; name := "Llama 3.3 70B (Powerful)";
       maxLength := 120000; tokenLimit := 131072 |};
    {| id := "gemma2-9b-it"; name := "Gemma 2 9B";
       maxLength := 24000; tokenLimit := 8192 |} ].

(** [new Response(JSON.stringify(models), { status: 200 })] *)
Definition models_response (models : list OpenAIModel) : Response :=
  {| status := 200; statusText := ""; headers := [];
     body := Json (JArr (map model_to_json models)) |}.

(** The handler.  [console.error] has no effect on the response and is
    left out. *)
Definition handler (env : Env)
    (net : UpstreamRequest -> completion Response) (req : RequestBody)
  : M UpstreamRequest Response :=
  try_catch
    (key <- lift (request_key req) ;;
     response <- fetch net (upstream_request env key) ;;
     if status response =? 401 then
       ret {| status := 500; statusText := "";
              headers := headers response; body := body response |}
     else if negb (status response =? 200) then
       throw (Error "API returned an error")
     else
       j <- lift (response_json response) ;;
       models <- lift (list_models j) ;;
       ret (models_response models))
    (fun error => ret (models_response fallbackModels)).

(** One invocation: the requests sent upstream and the completion. *)
Definition run (env : Env) (net : UpstreamRequest -> completion Response)
    (req : RequestBody) : list UpstreamRequest * completion Response :=
  handler env net req [].

End ModelsApi.

Export ModelsApi.

(* ================================================================== *)
(** ** The [/api/chat] relay *)

Module ChatApi.

Section Chat.
(** Modelled from the spec: [pages/api/chat.ts], [types/chat.ts] and
    [utils/server/index.ts] are not among the sources.  The model
    follows section 4.1 of the specification and the two snippets of
    [PROJECT_STRUCTURE.md] (the guard of the trimming loop and the
    [catch] clause).  A message is any value with an estimated token
    count.  The specification does not say what the running count
    holds before the first message is looked at; it is the parameter
    [prompt_tokens] of the system prompt, and the constant 0 counts the
    messages alone. *)
Variable Message : Type.
Variable tokens : Message -> nat.
Variable prompt_tokens : string -> nat.

(** Modelled from the spec: the request body [{model, messages, key,
    prompt}]; the optional temperature is passed through and plays no
    part in trimming or in error handling. *)
Record ChatBody : Type := mkChatBody {
  model : OpenAIModel;
  messages : list Message;
  key : string;
  prompt : string
}.

(** Modelled from the spec: the request forwarded upstream, with its
    bearer token. *)
Record ChatRequest : Type := mkChatRequest {
  bearer : string;
  model_id : string;
  system_prompt : string;
  forwarded : list Message
}.

(** Modelled from the spec: the loop that walks the messages from the
    most recent one backward ([recent] is the part of the list not yet
    visited, most recent first) and stops at the first message with
    [tokenCount + tokens.length + 1000 > model.tokenLimit]. *)
Fixpoint trim_loop (limit : Z) (recent : list Message) (tokenCount : Z)
    (messagesToSend : list Message) : list Message :=
  match recent with
  | [] => messagesToSend
  | message :: older =>
      if limit <? tokenCount + Z.of_nat (tokens message) + 1000
      then messagesToSend
      else trim_loop limit older (tokenCount + Z.of_nat (tokens message))
                     (message :: messagesToSend)
  end.

(** Modelled from the spec: the trimmed list of one request. *)
Definition trim (req : ChatBody) : list Message :=
  trim_loop (tokenLimit (model req)) (rev (messages req))
            (Z.of_nat (prompt_tokens (prompt req))) [].

(** Modelled from the spec: the trimmed request that is forwarded. *)
Definition chat_request (req : ChatBody) : ChatRequest :=
  let messagesToSend := trim req in
  {| bearer := key req; model_id := id (model req);
     system_prompt := prompt req; forwarded := messagesToSend |}.

(** Modelled from the spec: the upstream call.  A rejected key (401) is
    the authentication failure, raised as [OpenAIError]; any other
    status than 200 is a generic error carrying the status text; a
    network failure is whatever [fetch] threw. *)
Definition OpenAIStream (net : ChatRequest -> completion Response)
    (rq : ChatRequest) : M ChatRequest Body :=
  res <- fetch net rq ;;
  if status res =? 401 then throw (OpenAIError (statusText res))
  else if negb (status res =? 200) then throw (Error (statusText res))
  else ret (body res).

(** Modelled from the spec: the handler of [/api/chat]; it forwards the
    trimmed request, relays the streamed body unmodified and maps every
    failure to status 500. *)
Definition chat_handler (net : ChatRequest -> completion Response)
    (req : ChatBody) : M ChatRequest Response :=
  try_catch
    (stream <- OpenAIStream net (chat_request req) ;;
     ret {| status := 200; statusText := ""; headers := [];
            body := stream |})
    (fun error =>
       match error with
       | OpenAIError message =>
           ret {| status := 500; statusText := message; headers := [];
                  body := Text "Error" |}
       | _ =>
           ret {| status := 500; statusText := ""; headers := [];
                  body := Text "Error" |}
       end).

Definition chat_run (net : ChatRequest -> completion Response)
    (req : ChatBody) : list ChatRequest * completion Response :=
  chat_handler net req [].

(** The estimated cost of a list of messages. *)
Definition total_tokens (l : list Message) : Z :=
  fold_right (fun m acc => Z.of_nat (tokens m) + acc) 0 l.

End Chat.

Arguments model {Message} c.
Arguments messages {Message} c.
Arguments key {Message} c.
Arguments prompt {Message} c.
Arguments mkChatBody {Message} model messages key prompt.
Arguments bearer {Message} c.
Arguments model_id {Message} c.
Arguments system_prompt {Message} c.
Arguments forwarded {Message} c.
Arguments mkChatRequest {Message} bearer model_id system_prompt forwarded.

End ChatApi.
Export ChatApi.


(* ================================================================== *)
(** ** Vocabulary of the statements *)

(** The [id] of an upstream entry when it is an object with a string [id]. *)
Definition string_id (m : json) : option string :=
  match m with
  | JObj props =>
      match own_prop "id" props with
      | Some (JStr s) => Some s
      | _ => None
      end
  | _ => None
  end.

(** The model ids of an upstream list, in order. *)
Definition upstream_ids (items : list json) : list string :=
  flat_map (fun m => match string_id m with Some s => [s] | None => [] end)
           items.

(** The upstream body carries the list [items]: either under [data]
    (OpenAI and Groq) or as a bare array. *)
Inductive carries_list : json -> list json -> Prop :=
| carries_data props items :
    own_prop "data" props = Some (JArr items) ->
    carries_list (JObj props) items
| carries_bare items :
    carries_list (JArr items) items.

(** The members of the enum, in declaration order. *)
Definition all_model_ids : list OpenAIModelID :=
  [GPT_3_5; GPT_4; LLAMA_3_1_8B; LLAMA_3_3_70B; GEMMA2_9B; COMPOUND_BETA].

(** The ids of the hardcoded table. *)
Definition table_ids : list string := map OpenAIModelID_value all_model_ids.

(** The models the loop selects: the table entries whose id is upstream. *)
Definition predefined_models (items : list json) : list OpenAIModel :=
  map OpenAIModels
      (filter (fun v => existsb (fun s => String.eqb s (OpenAIModelID_value v))
                                (upstream_ids items))
              all_model_ids).

(** An id that mentions one of the four model families. *)
Definition mentions_family (s : string) : bool :=
  includes s "llama" || includes s "gemma" || includes s "compound"
  || includes s "gpt".

(** The entry built for an upstream id that is not in the table. *)
Definition dynamic_entry (s : string) : OpenAIModel :=
  {| id := s; name := capitalize_words (replace_dashes s);
     maxLength := 120000; tokenLimit := 131072 |}.

(** The upstream call failed: [fetch] rejected, or the status is neither
    200 nor 401, or a 200 body is not JSON. *)
Definition upstream_failed (c : completion Response) : Prop :=
  match c with
  | Throw _ => True
  | Normal u =>
      (status u <> 200 /\ status u <> 401)
      \/ (status u = 200 /\ exists t, body u = Text t)
  end.

(** The upstream call of the chat relay failed: [fetch] rejected, or the
    status is not 200. *)
Definition chat_upstream_failed (c : completion Response) : Prop :=
  match c with
  | Throw _ => True
  | Normal u => status u <> 200
  end.

(** A JSON object with exactly the four fields of [OpenAIModel]. *)
Definition model_shaped (j : json) : Prop :=
  exists (i n : string) (ml tl : Z),
    j = JObj [ ("id", JStr i); ("name", JStr n); ("maxLength", JNum ml);
               ("tokenLimit", JNum tl) ].

(** The outcome of the loop for one enum member: [modelExists], and
    [false] when the test throws. *)
Definition table_hit (modelsData : json) (v : OpenAIModelID) : bool :=
  match model_exists modelsData (OpenAIModelID_value v) with
  | Normal b => b
  | Throw _ => false
  end.

(** An upstream entry on which [model.id.includes] can be called: an object
    whose [id] is a string or an array. *)
Definition searchable (m : json) : bool :=
  match m with
  | JObj props =>
      match own_prop "id" props with
      | Some (JStr _) => true
      | Some (JArr _) => true
      | _ => false
      end
  | _ => false
  end.

(** *** Sample inputs *)

Definition sample_env : Env :=
  {| env_OPENAI_API_KEY := Some "gsk_server";
     env_OPENAI_ORGANIZATION := None;
     env_OPENAI_API_HOST := Some "https://api.groq.com/openai" |}.

Definition upstream_entry (i : string) : json :=
  JObj [ ("id", JStr i); ("object", JStr "model") ].

Definition upstream_ok (items : list json) : Response :=
  {| status := 200; statusText := "OK"; headers := [];
     body := Json (JObj [ ("object", JStr "list"); ("data", JArr items) ]) |}.

(** Ids as Groq lists them; none is an id of the table. *)
Definition sample_upstream_ids : list string :=
  [ "whisper-large-v3"; "llama3-8b-8192"; "meta-llama/llama-guard-4-12b";
    "openai/gpt-oss-120b"; "gemma-7b-it"; "groq/compound";
    "llama3-70b-8192" ].

Definition upstream_unauthorized : Response :=
  {| status := 401; statusText := "Unauthorized";
     headers := [("content-type", "application/json")];
     body := Json (JObj [ ("error",
                           JObj [ ("message", JStr "Invalid API Key") ]) ]) |}.

Definition upstream_unavailable : Response :=
  {| status := 503; statusText := "Service Unavailable"; headers := [];
     body := Text "upstream down" |}.

Definition answers {Req : Type} (r : Response) : Req -> completion Response :=
  fun _ => Normal r.

Definition unreachable {Req : Type} : Req -> completion Response :=
  fun _ => Throw NetworkError.

(** A chat whose messages are strings costing 500 tokens per character. *)
Definition sample_cost (m : string) : nat := (String.length m * 500)%nat.

(** A chat with a model whose limit is below the margin of 1000. *)
Definition tiny_chat : ChatBody string :=
  {| model := {| id := "tiny"; name := "Tiny"; maxLength := 1000;
                 tokenLimit := 500 |};
     messages := ["aa"; "d"];
     key := "gsk_user"; prompt := "You are a helpful AI assistant." |}.

Definition sample_chat : ChatBody string :=
  {| model := OpenAIModels GPT_3_5;
     messages := ["aaaa"; "bb"; "cccccc"; "d"];
     key := "gsk_user"; prompt := "You are a helpful AI assistant." |}.

(* ================================================================== *)
(** ** Properties of [/api/models] *)

Ltac unfold_handler :=
  unfold run, handler, try_catch, bind, fetch, lift, ret, throw,
    request_key; cbn [app fst snd].

(** A malformed request body never reaches the network. *)
Lemma run_malformed env net :
  run env net Malformed = ([], Normal (models_response fallbackModels)).
Proof. reflexivity. Qed.

(** The handler sends exactly one request upstream. *)
Lemma run_log env net key :
  fst (run env net (KeyBody key)) = [upstream_request env key].
Proof.
  unfold_handler.
  destruct (net (upstream_request env key)) as [u|e]; [|reflexivity].
  destruct (status u =? 401); [reflexivity|].
  destruct (negb (status u =? 200)); [reflexivity|].
  destruct (response_json u); [|reflexivity].
  destruct (list_models a); reflexivity.
Qed.

(** The relay branch. *)
Lemma run_unauthorized env net key u :
  net (upstream_request env key) = Normal u ->
  status u = 401 ->
  run env net (KeyBody key)
  = ([upstream_request env key],
     Normal {| status := 500; statusText := ""; headers := headers u;
               body := body u |}).
Proof.
  intros Hnet Hst. unfold_handler. rewrite Hnet.
  rewrite Hst. reflexivity.
Qed.

(** The catch branch. *)
Lemma run_failed env net key :
  upstream_failed (net (upstream_request env key)) ->
  run env net (KeyBody key)
  = ([upstream_request env key], Normal (models_response fallbackModels)).
Proof.
  intros Hfail. unfold_handler.
  destruct (net (upstream_request env key)) as [u|e]; [|reflexivity].
  simpl in Hfail. destruct Hfail as [[H200 H401]|[H200 [t Ht]]].
  - apply Z.eqb_neq in H200, H401. rewrite H401, H200. reflexivity.
  - rewrite H200. unfold response_json. rewrite Ht. reflexivity.
Qed.

(** A 200 answer with a JSON body runs the listing code. *)
Lemma run_listing env net key u j :
  net (upstream_request env key) = Normal u ->
  status u = 200 ->
  body u = Json j ->
  run env net (KeyBody key)
  = ([upstream_request env key],
     Normal (match list_models j with
             | Normal models => models_response models
             | Throw _ => models_response fallbackModels
             end)).
Proof.
  intros Hnet Hst Hbody. unfold_handler. rewrite Hnet, Hst.
  unfold response_json. rewrite Hbody. cbn.
  destruct (list_models j); reflexivity.
Qed.

(** Every answer is the relay of a 401 or a list of models. *)
Lemma run_cases env net req :
  (exists models, snd (run env net req) = Normal (models_response models))
  \/ (exists key u,
        req = KeyBody key /\ net (upstream_request env key) = Normal u
        /\ status u = 401).
Proof.
  destruct req as [|key].
  - left. eexists. reflexivity.
  - destruct (net (upstream_request env key)) as [u|e] eqn:Hnet.
    + destruct (Z.eq_dec (status u) 401) as [H401|H401].
      * right. eauto.
      * left. destruct (Z.eq_dec (status u) 200) as [H200|H200].
        -- destruct (body u) as [t|j] eqn:Hb.
           ++ exists fallbackModels. rewrite run_failed; [reflexivity|].
              rewrite Hnet. right. eauto.
           ++ rewrite (run_listing _ _ _ _ _ Hnet H200 Hb). cbn.
              destruct (list_models j); eauto.
        -- exists fallbackModels. rewrite run_failed; [reflexivity|].
           rewrite Hnet. left. auto.
    + left. exists fallbackModels. rewrite run_failed; [reflexivity|].
      rewrite Hnet. exact I.
Qed.

(** The handler never throws: every request is answered. *)
Lemma handler_returns env net req :
  exists r, snd (run env net req) = Normal r.
Proof.
  destruct (run_cases env net req) as [[models H]|[key [u [-> [Hnet H401]]]]].
  - eexists. exact H.
  - rewrite (run_unauthorized env net key u Hnet H401).
    eexists. reflexivity.
Qed.

(** *** Concrete evaluations *)

Example capitalize_example :
  capitalize_words (replace_dashes "meta-llama/llama-guard-4-12b")
  = "Meta Llama/Llama Guard 4 12b".
Proof. reflexivity. Qed.

Example includes_example :
  includes "openai/gpt-oss-120b" "gpt" = true
  /\ includes "whisper-large-v3" "gpt" = false.
Proof. split; reflexivity. Qed.

(** Predefined models come in the order of the enum, not of the upstream. *)
Example run_table_order :
  run sample_env
      (answers (upstream_ok [upstream_entry "gemma2-9b-it"; upstream_entry "gpt-4"]))
      (KeyBody None)
  = ([ {| url := "https://api.groq.com/openai/v1/models";
          request_headers := [ ("Content-Type", "application/json");
                               ("Authorization", "Bearer gsk_server") ] |} ],
     Normal (models_response [OpenAIModels GPT_4; OpenAIModels GEMMA2_9B])).
Proof. reflexivity. Qed.

(** A [null] entry makes [model.id] throw: the catch clause answers. *)
Example run_null_entry :
  snd (run sample_env
           (answers (upstream_ok [upstream_entry "whisper-large-v3"; JNull]))
           (KeyBody None))
  = Normal (models_response fallbackModels).
Proof. reflexivity. Qed.

(** A 200 body without a list: [modelsData.some] is not a function. *)
Example run_not_a_list :
  snd (run sample_env
           (answers {| status := 200; statusText := "OK"; headers := [];
                       body := Json (JObj [("object", JStr "list")]) |})
           (KeyBody (Some "gsk_user")))
  = Normal (models_response fallbackModels).
Proof. reflexivity. Qed.

(** An empty upstream list is answered with the empty array. *)
Example run_empty_list :
  snd (run sample_env (answers (upstream_ok [])) (KeyBody (Some "gsk_user")))
  = Normal (models_response []).
Proof. reflexivity. Qed.

(** *** The predefined loop *)

Lemma string_id_get m s :
  string_id m = Some s -> get_prop m "id" = Normal (Some (JStr s)).
Proof.
  destruct m; try discriminate. cbn.
  destruct (own_prop "id" props) as [[]|]; try discriminate.
  intros [= ->]. reflexivity.
Qed.

Lemma strict_eq_string_id m v value :
  m <> JNull ->
  get_prop m "id" = Normal v ->
  strict_eq_string v value
  = match string_id m with Some s => String.eqb s value | None => false end.
Proof.
  intros Hnull. destruct m; cbn; try congruence; intros [= <-]; try reflexivity.
  destruct (own_prop "id" props) as [[]|]; reflexivity.
Qed.

Lemma get_prop_nonnull m k :
  m <> JNull -> exists v, get_prop m k = Normal v.
Proof. destruct m; cbn; try congruence; eauto. Qed.

(** Without [null] entries [some] does not throw, and it finds [value]
    exactly when it is one of the upstream ids. *)
Lemma model_exists_spec items value :
  Forall (fun m => m <> JNull) items ->
  model_exists (JArr items) value
  = Normal (existsb (fun s => String.eqb s value) (upstream_ids items)).
Proof.
  unfold model_exists, call_some.
  induction 1 as [|m items Hm _ IH]; [reflexivity|].
  cbn [array_some upstream_ids flat_map].
  destruct (get_prop_nonnull m "id" Hm) as [v Hv]. rewrite Hv. cbn [cbind].
  rewrite (strict_eq_string_id m v value Hm Hv).
  fold (upstream_ids items).
  destruct (string_id m) as [s|]; cbn [app existsb].
  - destruct (String.eqb s value); [reflexivity|exact IH].
  - exact IH.
Qed.

Lemma predefined_loop_spec entries items models :
  Forall (fun m => m <> JNull) items ->
  predefined_loop entries (JArr items) models
  = Normal
      (models
       ++ map OpenAIModels
            (filter (fun v => existsb (fun s => String.eqb s (OpenAIModelID_value v))
                                      (upstream_ids items))
                    (map snd entries))).
Proof.
  intros Hitems. revert models.
  induction entries as [|[k v] entries IH]; intros models.
  - cbn. now rewrite app_nil_r.
  - cbn [predefined_loop map snd filter].
    rewrite (model_exists_spec items _ Hitems). cbn [cbind].
    rewrite IH.
    destruct (existsb _ (upstream_ids items)); cbn [map].
    + now rewrite <- app_assoc.
    + reflexivity.
Qed.

Lemma models_data_carries j items :
  carries_list j items -> models_data j = Normal (JArr items).
Proof.
  intros [props items' Hdata|items']; unfold models_data; cbn.
  - rewrite Hdata. reflexivity.
  - reflexivity.
Qed.

Lemma existsb_eqb_In (value : string) ids :
  existsb (fun s => String.eqb s value) ids = true <-> In value ids.
Proof.
  rewrite existsb_exists. split.
  - intros [s [Hin Heq]]. apply String.eqb_eq in Heq. now subst.
  - intros Hin. exists value. split; [assumption|apply String.eqb_refl].
Qed.

Lemma In_predefined_models items m :
  In m (predefined_models items)
  <-> exists v, m = OpenAIModels v /\ In (OpenAIModelID_value v) (upstream_ids items).
Proof.
  unfold predefined_models. rewrite in_map_iff. split.
  - intros [v [<- Hin]]. apply filter_In in Hin. destruct Hin as [_ Hex].
    exists v. split; [reflexivity|]. now apply existsb_eqb_In.
  - intros [v [-> Hin]]. exists v. split; [reflexivity|].
    apply filter_In. split.
    + destruct v; cbn; tauto.
    + now apply existsb_eqb_In.
Qed.

Lemma id_OpenAIModels v : id (OpenAIModels v) = OpenAIModelID_value v.
Proof. destruct v; reflexivity. Qed.

Lemma list_models_predefined j items :
  carries_list j items ->
  Forall (fun m => m <> JNull) items ->
  predefined_models items <> [] ->
  list_models j = Normal (predefined_models items).
Proof.
  intros Hj Hitems Hne. unfold list_models.
  rewrite (models_data_carries j items Hj). cbn [cbind].
  rewrite (predefined_loop_spec _ items [] Hitems). cbn [cbind app].
  change (map snd OpenAIModelID_entries) with all_model_ids.
  fold (predefined_models items).
  destruct (predefined_models items); [congruence|reflexivity].
Qed.

(** *** The dynamic branch *)

Lemma is_available_spec m s :
  string_id m = Some s -> is_available m = Normal (mentions_family s).
Proof.
  intros Hs. unfold is_available, mentions_family.
  rewrite (string_id_get m s Hs). cbn.
  destruct (includes s "llama"); [reflexivity|].
  destruct (includes s "gemma"); [reflexivity|].
  destruct (includes s "compound"); reflexivity.
Qed.

Lemma dynamic_model_spec m s :
  string_id m = Some s -> dynamic_model m = Normal (dynamic_entry s).
Proof.
  intros Hs. unfold dynamic_model. rewrite (string_id_get m s Hs).
  reflexivity.
Qed.

Lemma typed_not_null items ids :
  map string_id items = map Some ids -> Forall (fun m => m <> JNull) items.
Proof.
  revert ids. induction items as [|m items IH]; intros [|s ids] H;
    try discriminate; constructor.
  - injection H as Hm _. intros ->. discriminate.
  - injection H as _ Hrest. eauto.
Qed.

Lemma typed_upstream_ids items ids :
  map string_id items = map Some ids -> upstream_ids items = ids.
Proof.
  revert ids. induction items as [|m items IH]; intros [|s ids] H;
    try discriminate; [reflexivity|].
  injection H as Hm Hrest. cbn. rewrite Hm. cbn. f_equal. now apply IH.
Qed.

Lemma array_filter_typed items ids :
  map string_id items = map Some ids ->
  exists kept,
    array_filter is_available items = Normal kept
    /\ map string_id kept = map Some (filter mentions_family ids).
Proof.
  revert ids. induction items as [|m items IH]; intros [|s ids] H;
    try discriminate.
  - exists []. split; reflexivity.
  - injection H as Hm Hrest. destruct (IH ids Hrest) as [kept [Hk Hids]].
    cbn [array_filter filter]. rewrite (is_available_spec m s Hm), Hk.
    cbn [cbind]. destruct (mentions_family s); eexists; split;
      try reflexivity; cbn; congruence.
Qed.

Lemma array_map_typed l ids :
  map string_id l = map Some ids ->
  array_map dynamic_model l = Normal (map dynamic_entry ids).
Proof.
  revert ids. induction l as [|m l IH]; intros [|s ids] H; try discriminate.
  - reflexivity.
  - injection H as Hm Hrest. cbn [array_map map].
    rewrite (dynamic_model_spec m s Hm), (IH ids Hrest). reflexivity.
Qed.

Lemma available_models_typed items ids :
  map string_id items = map Some ids ->
  available_models (JArr items)
  = Normal (map dynamic_entry (firstn 5 (filter mentions_family ids))).
Proof.
  intros H. unfold available_models, call_filter.
  destruct (array_filter_typed items ids H) as [kept [-> Hids]].
  cbn [cbind]. apply array_map_typed.
  now rewrite <- !firstn_map, Hids.
Qed.

Lemma predefined_models_nil items :
  (forall v, ~ In (OpenAIModelID_value v) (upstream_ids items)) ->
  predefined_models items = [].
Proof.
  intros Hnone. destruct (predefined_models items) as [|m l] eqn:E;
    [reflexivity|].
  assert (Hin : In m (predefined_models items)) by (rewrite E; now left).
  apply In_predefined_models in Hin. destruct Hin as [v [_ Hv]].
  now apply Hnone in Hv.
Qed.

Lemma list_models_dynamic j items ids :
  carries_list j items ->
  map string_id items = map Some ids ->
  (forall v, ~ In (OpenAIModelID_value v) ids) ->
  list_models j
  = Normal (map dynamic_entry (firstn 5 (filter mentions_family ids))).
Proof.
  intros Hj Hids Hnone. unfold list_models.
  rewrite (models_data_carries j items Hj). cbn [cbind].
  rewrite (predefined_loop_spec _ items [] (typed_not_null _ _ Hids)).
  cbn [cbind app].
  change (map snd OpenAIModelID_entries) with all_model_ids.
  fold (predefined_models items).
  rewrite predefined_models_nil
    by (rewrite (typed_upstream_ids _ _ Hids); exact Hnone).
  cbn. rewrite (available_models_typed items ids Hids). reflexivity.
Qed.

Lemma model_to_json_inj m m' : model_to_json m = model_to_json m' -> m = m'.
Proof.
  destruct m, m'. unfold model_to_json. cbn. intros [= -> -> -> ->].
  reflexivity.
Qed.

Lemma models_response_inj l l' :
  models_response l = models_response l' -> l = l'.
Proof.
  unfold models_response. intros [= H]. revert l' H.
  induction l as [|m l IH]; intros [|m' l'] H; try discriminate;
    [reflexivity|].
  cbn [map] in H.
  pose proof (f_equal (hd JNull) H) as Hm.
  pose proof (f_equal (@tl json) H) as Hl. cbn [hd tl] in Hm, Hl.
  f_equal; [now apply model_to_json_inj|now apply IH].
Qed.

(** *** Statements about [/api/models] *)

(** C2.  When the upstream call throws (the [fetch] rejects, the upstream
    answers with a status that is neither 200 nor 401, or its 200 body is
    not JSON), [/api/models] answers with exactly the static list of three
    models, written out here field by field, as its JSON body. *)
Theorem models_fallback_verbatim env net key :
  upstream_failed (net (upstream_request env key)) ->
  snd (run env net (KeyBody key))
  = Normal
      {| status := 200; statusText := ""; headers := [];
         body :=
           Json (JArr
             [ JObj [ ("id", JStr "llama-3.1-8b-instant");
                      ("name", JStr "Llama 3.1 8B (Fast)");
                      ("maxLength", JNum 120000);
                      ("tokenLimit", JNum 131072) ];
               JObj [ ("id", JStr "llama-3.3-70b-versatile");
                      ("name", JStr "Llama 3.3 70B (Powerful)");
                      ("maxLength", JNum 120000);
                      ("tokenLimit", JNum 131072) ];
               JObj [ ("id", JStr "gemma2-9b-it");
                      ("name", JStr "Gemma 2 9B");
                      ("maxLength", JNum 24000);
                      ("tokenLimit", JNum 8192) ] ]) |}.
Proof.
  intros Hfail. rewrite (run_failed env net key Hfail). reflexivity.
Qed.

Lemma models_fallback_verbatim_witness :
  upstream_failed
    (answers upstream_unavailable (upstream_request sample_env None))
  /\ snd (run sample_env (answers upstream_unavailable) (KeyBody None))
     = Normal (models_response fallbackModels).
Proof.
  split.
  - left. split; discriminate.
  - apply (models_fallback_verbatim sample_env (answers upstream_unavailable)
             None).
    left. split; discriminate.
Defined.

(** C3, as stated, fails: an upstream list without any id of the table is
    answered with a model that the table does not contain. *)
Lemma models_not_intersection :
  snd (run sample_env (answers (upstream_ok [upstream_entry "llama3-8b-8192"]))
           (KeyBody (Some "gsk_user")))
  = Normal (models_response
              [ {| id := "llama3-8b-8192"; name := "Llama3 8b 8192";
                   maxLength := 120000; tokenLimit := 131072 |} ])
  /\ ~ In "llama3-8b-8192" table_ids.
Proof.
  split; [reflexivity|].
  cbn. intros H. repeat (destruct H as [H|H]; [discriminate H|]). exact H.
Qed.

(** C3, amended.  When the upstream answers 200 with a list that has no
    [null] entry and in which at least one id of the hardcoded table occurs,
    the answer lists entries of the table only, and an id is listed if and
    only if it is both an upstream id and an id of the table. *)
Theorem models_intersection_when_table_hit env net key u j items :
  net (upstream_request env key) = Normal u ->
  status u = 200 ->
  body u = Json j ->
  carries_list j items ->
  Forall (fun m => m <> JNull) items ->
  (exists v, In (OpenAIModelID_value v) (upstream_ids items)) ->
  exists models,
    snd (run env net (KeyBody key)) = Normal (models_response models)
    /\ (forall i, In i (map id models)
                  <-> In i (upstream_ids items) /\ In i table_ids)
    /\ (forall m, In m models -> exists v, m = OpenAIModels v).
Proof.
  intros Hnet Hst Hbody Hj Hitems [v0 Hv0].
  exists (predefined_models items).
  assert (Hne : predefined_models items <> []).
  { intros E.
    assert (Hin : In (OpenAIModels v0) (predefined_models items))
      by (apply In_predefined_models; eauto).
    rewrite E in Hin. exact Hin. }
  split; [|split].
  - rewrite (run_listing env net key u j Hnet Hst Hbody).
    rewrite (list_models_predefined j items Hj Hitems Hne). reflexivity.
  - intros i. rewrite in_map_iff. split.
    + intros [m [<- Hin]]. apply In_predefined_models in Hin.
      destruct Hin as [v [-> Hv]]. rewrite id_OpenAIModels. split; [exact Hv|].
      unfold table_ids. apply in_map. destruct v; cbn; tauto.
    + intros [Hup Htab]. unfold table_ids in Htab.
      apply in_map_iff in Htab. destruct Htab as [v [<- _]].
      exists (OpenAIModels v). split; [apply id_OpenAIModels|].
      apply In_predefined_models. eauto.
  - intros m Hin. apply In_predefined_models in Hin.
    destruct Hin as [v [-> _]]. eauto.
Qed.

Lemma models_intersection_when_table_hit_witness :
  exists models,
    snd (run sample_env
             (answers (upstream_ok [ upstream_entry "gemma2-9b-it";
                                     upstream_entry "whisper-large-v3";
                                     upstream_entry "gpt-4" ]))
             (KeyBody (Some "gsk_user")))
    = Normal (models_response models)
    /\ (forall i, In i (map id models)
                  <-> In i ["gemma2-9b-it"; "whisper-large-v3"; "gpt-4"]
                      /\ In i table_ids)
    /\ (forall m, In m models -> exists v, m = OpenAIModels v).
Proof.
  refine (models_intersection_when_table_hit sample_env
            (answers (upstream_ok [ upstream_entry "gemma2-9b-it";
                                    upstream_entry "whisper-large-v3";
                                    upstream_entry "gpt-4" ]))
            (Some "gsk_user") _ _
            [ upstream_entry "gemma2-9b-it"; upstream_entry "whisper-large-v3";
              upstream_entry "gpt-4" ]
            eq_refl eq_refl eq_refl _ _ _).
  - apply carries_data. reflexivity.
  - repeat constructor; discriminate.
  - exists GPT_4. cbn. tauto.
Defined.

(** C4, as stated, fails: an upstream 401 is answered with status 500. *)
Lemma models_unauthorized_not_propagated :
  status upstream_unauthorized = 401
  /\ exists r,
       snd (run sample_env (answers upstream_unauthorized)
                (KeyBody (Some "gsk_revoked")))
       = Normal r
       /\ status r = 500
       /\ status r <> status upstream_unauthorized.
Proof.
  split; [reflexivity|]. eexists. split; [reflexivity|].
  split; [reflexivity|discriminate].
Qed.

(** C4, amended.  When the upstream answers 401, [/api/models] answers with
    status 500 and relays the upstream body and headers. *)
Theorem models_unauthorized_is_500 env net key u :
  net (upstream_request env key) = Normal u ->
  status u = 401 ->
  exists r,
    snd (run env net (KeyBody key)) = Normal r
    /\ status r = 500 /\ body r = body u /\ headers r = headers u.
Proof.
  intros Hnet Hst. rewrite (run_unauthorized env net key u Hnet Hst).
  eexists. split; [reflexivity|]. cbn. auto.
Qed.

Lemma models_unauthorized_is_500_witness :
  exists r,
    snd (run sample_env (answers upstream_unauthorized)
             (KeyBody (Some "gsk_revoked")))
    = Normal r
    /\ status r = 500 /\ body r = body upstream_unauthorized
    /\ headers r = headers upstream_unauthorized.
Proof.
  exact (models_unauthorized_is_500 sample_env (answers upstream_unauthorized)
           (Some "gsk_revoked") upstream_unauthorized eq_refl eq_refl).
Defined.

(** C7.  Unless the handler relays an upstream 401, the body it answers
    with (predefined, dynamic or fallback list) is a JSON array, and each
    element is an object with exactly the fields [id] and [name] (strings),
    [maxLength] and [tokenLimit] (numbers), in this order. *)
Theorem models_body_shape env net req :
  (forall key u,
      req = KeyBody key -> net (upstream_request env key) = Normal u ->
      status u <> 401) ->
  exists r elems,
    snd (run env net req) = Normal r
    /\ status r = 200
    /\ body r = Json (JArr elems)
    /\ Forall model_shaped elems.
Proof.
  intros Hno401.
  destruct (run_cases env net req) as [[models Hrun]|[key [u [Hreq [Hnet H401]]]]].
  - exists (models_response models), (map model_to_json models).
    split; [exact Hrun|]. split; [reflexivity|]. split; [reflexivity|].
    apply Forall_forall. intros e He. apply in_map_iff in He.
    destruct He as [m [<- _]].
    exists (id m), (name m), (maxLength m), (tokenLimit m). reflexivity.
  - exfalso. exact (Hno401 key u Hreq Hnet H401).
Qed.

Lemma models_body_shape_witness :
  (forall key u,
      KeyBody (Some "gsk_user") = KeyBody key ->
      answers (upstream_ok [upstream_entry "openai/gpt-oss-120b"])
              (upstream_request sample_env key) = Normal u ->
      status u <> 401)
  /\ exists r elems,
       snd (run sample_env
                (answers (upstream_ok [upstream_entry "openai/gpt-oss-120b"]))
                (KeyBody (Some "gsk_user")))
       = Normal r
       /\ status r = 200
       /\ body r = Json (JArr elems)
       /\ Forall model_shaped elems.
Proof.
  assert (H : forall key u,
             KeyBody (Some "gsk_user") = KeyBody key ->
             answers (upstream_ok [upstream_entry "openai/gpt-oss-120b"])
                     (upstream_request sample_env key) = Normal u ->
             status u <> 401).
  { intros key u _ Hu. unfold answers in Hu. injection Hu as <-.
    discriminate. }
  split; [exact H|].
  exact (models_body_shape sample_env
           (answers (upstream_ok [upstream_entry "openai/gpt-oss-120b"]))
           (KeyBody (Some "gsk_user")) H).
Defined.

(** [includes] is the substring test. *)
Lemma prefix_spec needle s :
  String.prefix needle s = true <-> exists post, s = (needle ++ post)%string.
Proof.
  revert s. induction needle as [|c needle IH]; intros s.
  - destruct s; cbn; (split; [intros _; eexists; reflexivity|reflexivity]).
  - destruct s as [|d s]; cbn.
    + split; [discriminate|intros [post H]; discriminate H].
    + destruct (ascii_dec c d) as [->|Hcd].
      * rewrite IH. split; intros [post H]; exists post; congruence.
      * split; [discriminate|intros [post H]; congruence].
Qed.

Lemma includes_spec s needle :
  includes s needle = true
  <-> exists pre post, s = (pre ++ needle ++ post)%string.
Proof.
  induction s as [|c s IH].
  - cbn [includes]. rewrite orb_false_r, prefix_spec. split.
    + intros [post H]. now exists EmptyString, post.
    + intros [[|d pre] [post H]]; [now exists post|discriminate H].
  - cbn [includes]. rewrite orb_true_iff, prefix_spec, IH. split.
    + intros [[post H]|[pre [post H]]].
      * now exists EmptyString, post.
      * exists (String c pre), post. cbn. now rewrite H.
    + intros [[|d pre] [post H]].
      * left. now exists post.
      * right. exists pre, post. cbn in H. congruence.
Qed.

Lemma In_firstn {A} n (l : list A) x : In x (firstn n l) -> In x l.
Proof.
  intros H. rewrite <- (firstn_skipn n l). apply in_or_app. now left.
Qed.

Lemma mentions_family_spec s :
  mentions_family s = true
  <-> exists needle pre post,
        In needle ["llama"; "gemma"; "compound"; "gpt"]
        /\ s = (pre ++ needle ++ post)%string.
Proof.
  unfold mentions_family. rewrite !orb_true_iff, !includes_spec. split.
  - intros [[[H|H]|H]|H]; destruct H as [pre [post H]];
      eexists; exists pre, post; (split; [|exact H]); cbn; auto.
  - intros [needle [pre [post [Hin H]]]]. cbn in Hin.
    destruct Hin as [<-|[<-|[<-|[<-|[]]]]]; eauto 10.
Qed.

(** C9, as stated, fails: the upstream call succeeds, no id of the table
    is upstream, and yet the answer is the static fallback, because one
    entry of the list has no [id]. *)
Lemma models_dynamic_listing_spoiled :
  status (upstream_ok [ upstream_entry "llama3-8b-8192";
                        JObj [("object", JStr "model")] ]) = 200
  /\ upstream_ids [ upstream_entry "llama3-8b-8192";
                    JObj [("object", JStr "model")] ]
     = ["llama3-8b-8192"]
  /\ ~ In "llama3-8b-8192" table_ids
  /\ snd (run sample_env
              (answers (upstream_ok [ upstream_entry "llama3-8b-8192";
                                      JObj [("object", JStr "model")] ]))
              (KeyBody (Some "gsk_user")))
     = Normal (models_response fallbackModels).
Proof.
  split; [reflexivity|]. split; [reflexivity|]. split; [|reflexivity].
  cbn. intros H. repeat (destruct H as [H|H]; [discriminate H|]). exact H.
Qed.

(** C9, amended.  When the upstream answers 200 with a list whose entries
    are all objects with a string [id], none of which is an id of the
    hardcoded table, [/api/models] does not answer with the static
    fallback: it answers with status 200 and the first five, in upstream
    order, of the ids that contain [llama], [gemma], [compound] or [gpt] as
    a substring, each with [maxLength] 120000 and [tokenLimit] 131072; when
    no upstream id contains one of them the array is empty. *)
Theorem models_dynamic_listing env net key u j items ids :
  net (upstream_request env key) = Normal u ->
  status u = 200 ->
  body u = Json j ->
  carries_list j items ->
  map string_id items = map Some ids ->
  (forall v, ~ In (OpenAIModelID_value v) ids) ->
  exists (matches : string -> bool) listed,
    (forall s,
        matches s = true
        <-> exists needle pre post,
              In needle ["llama"; "gemma"; "compound"; "gpt"]
              /\ s = (pre ++ needle ++ post)%string)
    /\ listed = firstn 5 (filter matches ids)
    /\ snd (run env net (KeyBody key))
       = Normal
           {| status := 200; statusText := ""; headers := [];
              body :=
                Json (JArr
                  (map (fun s =>
                          JObj [ ("id", JStr s);
                                 ("name",
                                  JStr (capitalize_words (replace_dashes s)));
                                 ("maxLength", JNum 120000);
                                 ("tokenLimit", JNum 131072) ])
                       listed)) |}
    /\ (length listed <= 5)%nat
    /\ ((forall s, In s ids ->
                   ~ exists needle pre post,
                       In needle ["llama"; "gemma"; "compound"; "gpt"]
                       /\ s = (pre ++ needle ++ post)%string) ->
        listed = [])
    /\ snd (run env net (KeyBody key))
       <> Normal (models_response fallbackModels).
Proof.
  intros Hnet Hst Hbody Hj Hids Hnone.
  exists mentions_family, (firstn 5 (filter mentions_family ids)).
  assert (Hrun : snd (run env net (KeyBody key))
                 = Normal (models_response
                             (map dynamic_entry
                                  (firstn 5 (filter mentions_family ids))))).
  { rewrite (run_listing env net key u j Hnet Hst Hbody).
    rewrite (list_models_dynamic j items ids Hj Hids Hnone). reflexivity. }
  split; [exact mentions_family_spec|].
  split; [reflexivity|]. split; [|split; [|split]].
  - rewrite Hrun. unfold models_response. now rewrite map_map.
  - apply firstn_le_length.
  - intros Hno. destruct (firstn 5 (filter mentions_family ids)) as [|s l] eqn:E;
      [reflexivity|].
    assert (Hin : In s (filter mentions_family ids))
      by (apply (In_firstn 5); rewrite E; now left).
    apply filter_In in Hin. destruct Hin as [Hin Hm].
    apply mentions_family_spec in Hm. now apply (Hno s Hin) in Hm.
  - rewrite Hrun. intros Heq.
    assert (Hl : map dynamic_entry (firstn 5 (filter mentions_family ids))
                 = fallbackModels).
    { apply models_response_inj. congruence. }
    destruct (firstn 5 (filter mentions_family ids)) as [|s l] eqn:E;
      [discriminate Hl|].
    assert (Hin : In s (filter mentions_family ids))
      by (apply (In_firstn 5); rewrite E; now left).
    apply filter_In in Hin. destruct Hin as [Hin _].
    injection Hl as Hs _. apply (Hnone LLAMA_3_1_8B). cbn. now rewrite <- Hs.
Qed.

Lemma models_dynamic_listing_witness :
  exists (matches : string -> bool) listed,
    (forall s,
        matches s = true
        <-> exists needle pre post,
              In needle ["llama"; "gemma"; "compound"; "gpt"]
              /\ s = (pre ++ needle ++ post)%string)
    /\ listed = firstn 5 (filter matches sample_upstream_ids)
    /\ snd (run sample_env
                (answers (upstream_ok (map upstream_entry sample_upstream_ids)))
                (KeyBody (Some "")))
       = Normal
           {| status := 200; statusText := ""; headers := [];
              body :=
                Json (JArr
                  (map (fun s =>
                          JObj [ ("id", JStr s);
                                 ("name",
                                  JStr (capitalize_words (replace_dashes s)));
                                 ("maxLength", JNum 120000);
                                 ("tokenLimit", JNum 131072) ])
                       listed)) |}
    /\ (length listed <= 5)%nat
    /\ ((forall s, In s sample_upstream_ids ->
                   ~ exists needle pre post,
                       In needle ["llama"; "gemma"; "compound"; "gpt"]
                       /\ s = (pre ++ needle ++ post)%string) ->
        listed = [])
    /\ snd (run sample_env
                (answers (upstream_ok (map upstream_entry sample_upstream_ids)))
                (KeyBody (Some "")))
       <> Normal (models_response fallbackModels).
Proof.
  refine (models_dynamic_listing sample_env
            (answers (upstream_ok (map upstream_entry sample_upstream_ids)))
            (Some "")
            (upstream_ok (map upstream_entry sample_upstream_ids))
            _
            (map upstream_entry sample_upstream_ids)
            sample_upstream_ids
            eq_refl eq_refl eq_refl _ eq_refl _).
  - apply carries_data. reflexivity.
  - intros v H. cbn in H.
    repeat (destruct H as [H|H]; [destruct v; discriminate H|]). exact H.
Defined.

(** C10.  For a request body with or without a key, exactly one request is
    sent upstream, to the model-list endpoint, and it carries exactly one
    [Authorization] header: [Bearer] followed by the key of the body when
    this is a non-empty string, and by the value of the [OPENAI_API_KEY]
    variable when the key is missing or empty (the text [undefined] when
    the variable is not set).  Nothing is rejected before the upstream
    call. *)
Theorem models_upstream_bearer env net key :
  exists rq,
    fst (run env net (KeyBody key)) = [rq]
    /\ url rq
       = (match env_OPENAI_API_HOST env with
          | Some (String c h) => String c h
          | Some EmptyString => "https://api.openai.com"
          | None => "https://api.openai.com"
          end ++ "/v1/models")%string
    /\ filter (fun h => String.eqb (fst h) "Authorization") (request_headers rq)
       = [ ("Authorization",
            ("Bearer "
             ++ match key, env_OPENAI_API_KEY env with
                | Some (String c k), _ => String c k
                | _, Some value => value
                | _, None => "undefined"
                end)%string) ].
Proof.
  exists (upstream_request env key). split; [apply run_log|].
  split.
  { unfold upstream_request, OPENAI_API_HOST, env_or. cbn [url].
    destruct (env_OPENAI_API_HOST env) as [[|c h]|]; reflexivity. }
  unfold upstream_request, organization_header, bearer_token, render.
  cbn [request_headers].
  assert (Horg : filter (fun h : string * string => String.eqb (fst h) "Authorization")
                   (match env_OPENAI_ORGANIZATION env with
                    | Some org =>
                        if String.eqb org "" then []
                        else [("OpenAI-Organization", org)]
                    | None => []
                    end) = []).
  { destruct (env_OPENAI_ORGANIZATION env) as [org|]; [|reflexivity].
    destruct (String.eqb org ""); reflexivity. }
  rewrite filter_app, Horg.
  destruct key as [[|c k]|], (env_OPENAI_API_KEY env); reflexivity.
Qed.

(* ================================================================== *)
(** ** Properties of the chat relay *)

Section ChatProperties.
Variable Message : Type.
Variable tokens : Message -> nat.
Variable prompt_tokens : string -> nat.

Local Abbreviation total := (total_tokens Message tokens).

Lemma total_tokens_app l l' : total (l ++ l') = total l + total l'.
Proof.
  unfold total_tokens.
  induction l as [|m l IH]; cbn [app fold_right]; [reflexivity|].
  rewrite IH. lia.
Qed.

Lemma total_tokens_nonneg l : 0 <= total l.
Proof.
  unfold total_tokens.
  induction l as [|m l IH]; cbn [fold_right]; lia.
Qed.

Lemma total_tokens_rev l : total (rev l) = total l.
Proof.
  induction l as [|m l IH]; [reflexivity|].
  cbn [rev]. rewrite total_tokens_app, IH.
  unfold total_tokens. cbn [fold_right]. lia.
Qed.

(** The loop consumes a prefix [taken] of the messages it walks over
    (most recent first), and stops either at the end or at a message
    that would exceed the limit. *)
Lemma trim_loop_spec limit recent :
  forall tokenCount messagesToSend,
  exists taken rest,
    recent = taken ++ rest
    /\ trim_loop Message tokens limit recent tokenCount messagesToSend
       = rev taken ++ messagesToSend
    /\ (taken = [] \/ tokenCount + total taken + 1000 <= limit)
    /\ (rest = []
        \/ exists m older,
             rest = m :: older
             /\ limit < tokenCount + total taken + Z.of_nat (tokens m) + 1000).
Proof.
  induction recent as [|m recent IH]; intros tokenCount messagesToSend.
  - exists [], []. cbn. repeat split; auto.
  - cbn [trim_loop].
    destruct (limit <? tokenCount + Z.of_nat (tokens m) + 1000) eqn:E.
    + apply Z.ltb_lt in E. exists [], (m :: recent). cbn.
      repeat split; [now left|]. right. exists m, recent.
      split; [reflexivity|lia].
    + apply Z.ltb_ge in E.
      destruct (IH (tokenCount + Z.of_nat (tokens m)) (m :: messagesToSend))
        as [taken [rest [Hsplit [Hres [Hfit Hstop]]]]].
      exists (m :: taken), rest. split; [cbn; now rewrite Hsplit|].
      split; [rewrite Hres; cbn; now rewrite <- app_assoc|].
      split.
      * right. destruct Hfit as [->|Hfit]; cbn; [lia|].
        unfold total_tokens in Hfit. lia.
      * destruct Hstop as [->|[m' [older [-> Hover]]]]; [now left|].
        right. exists m', older. split; [reflexivity|].
        cbn. unfold total_tokens in Hover. lia.
Qed.

(** The relay sends exactly one request upstream: the trimmed one. *)
Lemma chat_log net (req : ChatBody Message) :
  fst (chat_run Message tokens prompt_tokens net req)
  = [chat_request Message tokens prompt_tokens req].
Proof.
  unfold chat_run, chat_handler, OpenAIStream, try_catch, bind, fetch, ret,
    throw. cbn [app].
  destruct (net _) as [u|e]; [|destruct e; reflexivity].
  destruct (status u =? 401); [reflexivity|].
  destruct (negb (status u =? 200)); reflexivity.
Qed.

(** Every failure of the upstream call ends in status 500. *)
Lemma chat_failed net (req : ChatBody Message) :
  chat_upstream_failed
    (net (chat_request Message tokens prompt_tokens req)) ->
  exists r,
    snd (chat_run Message tokens prompt_tokens net req) = Normal r
    /\ status r = 500.
Proof.
  intros Hfail.
  unfold chat_run, chat_handler, OpenAIStream, try_catch, bind, fetch, ret,
    throw. cbn [app].
  destruct (net _) as [u|e].
  - cbn in Hfail. destruct (status u =? 401).
    + eexists. split; reflexivity.
    + apply Z.eqb_neq in Hfail. rewrite Hfail. eexists. split; reflexivity.
  - destruct e; eexists; split; reflexivity.
Qed.

(** A prompt that leaves no room for the margin empties the list. *)
Lemma trim_nothing_fits (req : ChatBody Message) :
  tokenLimit (model req) < Z.of_nat (prompt_tokens (prompt req)) + 1000 ->
  trim Message tokens prompt_tokens req = [].
Proof.
  intros Hover. unfold trim.
  destruct (rev (messages req)) as [|m l]; [reflexivity|].
  cbn [trim_loop].
  destruct (_ <? _) eqn:E; [reflexivity|]. apply Z.ltb_ge in E. lia.
Qed.

(** C1, amended.  When the limit of the selected model is at least the
    margin of 1000, and the estimated tokens of the message list plus the
    margin exceed the limit, the relay forwards a proper suffix [kept] of
    the list, in the original order: only the oldest messages are dropped,
    the kept suffix plus the margin fits under the limit (together with the
    tokens counted before the first message whenever a message is kept),
    and the most recent dropped message would not have fitted. *)
Theorem chat_trims_oldest_first net (req : ChatBody Message) :
  tokenLimit (model req) < total (messages req) + 1000 ->
  1000 <= tokenLimit (model req) ->
  exists older m kept rq,
    fst (chat_run Message tokens prompt_tokens net req) = [rq]
    /\ forwarded rq = kept
    /\ messages req = older ++ m :: kept
    /\ total kept + 1000 <= tokenLimit (model req)
    /\ (kept = []
        \/ Z.of_nat (prompt_tokens (prompt req)) + total kept + 1000
           <= tokenLimit (model req))
    /\ tokenLimit (model req)
       < Z.of_nat (prompt_tokens (prompt req)) + total kept
         + Z.of_nat (tokens m) + 1000.
Proof.
  intros Hover Hmargin.
  destruct (trim_loop_spec (tokenLimit (model req)) (rev (messages req))
              (Z.of_nat (prompt_tokens (prompt req))) [])
    as [taken [rest [Hsplit [Hres [Hfit Hstop]]]]].
  pose proof (Nat2Z.is_nonneg (prompt_tokens (prompt req))) as Hp.
  assert (Hmsgs : messages req = rev rest ++ rev taken).
  { rewrite <- rev_app_distr, <- Hsplit. symmetry. apply rev_involutive. }
  destruct Hstop as [->|[m [older [-> Hstop]]]].
  - exfalso. cbn in Hmsgs. rewrite Hmsgs, total_tokens_rev in Hover.
    destruct Hfit as [->|Hfit]; [cbn in Hover|]; lia.
  - exists (rev older), m, (rev taken),
      (chat_request Message tokens prompt_tokens req).
    split; [apply chat_log|].
    split; [unfold chat_request, trim; cbn; rewrite Hres; apply app_nil_r|].
    split; [rewrite Hmsgs; cbn; now rewrite <- app_assoc|].
    rewrite total_tokens_rev.
    destruct Hfit as [->|Hfit].
    + cbn. split; [lia|]. split; [now left|cbn in Hstop; lia].
    + split; [lia|]. split; [now right|lia].
Qed.

(** C6.  When the upstream rejects the bearer token of a chat request
    (status 401), the relay answers with status 500. *)
Theorem chat_invalid_key_is_500 net (req : ChatBody Message) u :
  net (chat_request Message tokens prompt_tokens req) = Normal u ->
  status u = 401 ->
  exists r,
    snd (chat_run Message tokens prompt_tokens net req) = Normal r
    /\ status r = 500.
Proof.
  intros Hnet H401. apply chat_failed. rewrite Hnet. cbn. lia.
Qed.

End ChatProperties.

Example trim_example :
  trim string sample_cost String.length sample_chat = ["d"].
Proof. reflexivity. Qed.

(** Every model of the table leaves room for the margin. *)
Lemma table_limits_exceed_margin v : 1000 <= tokenLimit (OpenAIModels v).
Proof. destruct v; cbn; lia. Qed.

Lemma chat_trims_oldest_first_witness :
  tokenLimit (model sample_chat)
  < total_tokens string sample_cost (messages sample_chat) + 1000
  /\ 1000 <= tokenLimit (model sample_chat)
  /\ exists older m kept rq,
       fst (chat_run string sample_cost String.length unreachable sample_chat)
       = [rq]
       /\ forwarded rq = kept
       /\ messages sample_chat = older ++ m :: kept
       /\ total_tokens string sample_cost kept + 1000
          <= tokenLimit (model sample_chat)
       /\ (kept = []
           \/ Z.of_nat (String.length (prompt sample_chat))
              + total_tokens string sample_cost kept + 1000
              <= tokenLimit (model sample_chat))
       /\ tokenLimit (model sample_chat)
          < Z.of_nat (String.length (prompt sample_chat))
            + total_tokens string sample_cost kept
            + Z.of_nat (sample_cost m) + 1000.
Proof.
  assert (H1 : tokenLimit (model sample_chat)
               < total_tokens string sample_cost (messages sample_chat) + 1000)
    by (vm_compute; reflexivity).
  assert (H2 : 1000 <= tokenLimit (model sample_chat))
    by (vm_compute; discriminate).
  split; [exact H1|]. split; [exact H2|].
  exact (chat_trims_oldest_first string sample_cost String.length unreachable
           sample_chat H1 H2).
Defined.

(** C1, as stated, fails when the limit of the model is below the margin:
    the messages plus the margin exceed the limit, every message is
    dropped, and the empty list that is kept still does not fit.  The
    count starts at 0 here, so the prompt plays no part. *)
Lemma chat_margin_exceeds_limit :
  tokenLimit (model tiny_chat)
  < total_tokens string sample_cost (messages tiny_chat) + 1000
  /\ fst (chat_run string sample_cost (fun _ => 0%nat) unreachable tiny_chat)
     = [ {| bearer := "gsk_user"; model_id := "tiny";
            system_prompt := "You are a helpful AI assistant.";
            forwarded := [] |} ]
  /\ ~ (total_tokens string sample_cost [] + 1000
        <= tokenLimit (model tiny_chat)).
Proof.
  split; [vm_compute; reflexivity|]. split; [reflexivity|].
  vm_compute. intros H. now apply H.
Qed.

Lemma chat_invalid_key_is_500_witness :
  exists r,
    snd (chat_run string sample_cost String.length
           (answers upstream_unauthorized) sample_chat)
    = Normal r
    /\ status r = 500.
Proof.
  exact (chat_invalid_key_is_500 string sample_cost String.length
           (answers upstream_unauthorized) sample_chat upstream_unauthorized
           eq_refl eq_refl).
Defined.

(** ** Failures of the upstream call, on both endpoints *)

(** C5, as stated, fails: when the network is unreachable, [/api/models]
    answers with status 200. *)
Lemma models_failure_not_500 :
  upstream_failed
    (unreachable (upstream_request sample_env (Some "gsk_user")))
  /\ exists r,
       snd (run sample_env unreachable (KeyBody (Some "gsk_user"))) = Normal r
       /\ status r = 200
       /\ status r <> 500.
Proof.
  split; [exact I|]. eexists. split; [reflexivity|].
  split; [reflexivity|discriminate].
Qed.

(** C5, amended.  When the upstream call fails (network error, or a status
    other than 200 and, for the model list, other than 401), the chat relay
    answers with status 500, whereas [/api/models] answers with status 200
    and the static fallback list. *)
Theorem upstream_failure_statuses env net key
    (Message : Type) (tokens : Message -> nat) (prompt_tokens : string -> nat)
    chat_net (req : ChatBody Message) :
  upstream_failed (net (upstream_request env key)) ->
  chat_upstream_failed
    (chat_net (chat_request Message tokens prompt_tokens req)) ->
  (exists r,
      snd (run env net (KeyBody key)) = Normal r
      /\ status r = 200
      /\ body r = Json (JArr (map model_to_json fallbackModels)))
  /\ (exists r,
        snd (chat_run Message tokens prompt_tokens chat_net req) = Normal r
        /\ status r = 500).
Proof.
  intros Hmodels Hchat. split.
  - rewrite (run_failed env net key Hmodels). eexists.
    split; [reflexivity|]. split; reflexivity.
  - now apply chat_failed.
Qed.

Lemma upstream_failure_statuses_witness :
  upstream_failed
    (answers upstream_unavailable (upstream_request sample_env (Some "gsk_user")))
  /\ chat_upstream_failed
       (unreachable (chat_request string sample_cost String.length sample_chat))
  /\ (exists r,
         snd (run sample_env (answers upstream_unavailable)
                  (KeyBody (Some "gsk_user")))
         = Normal r
         /\ status r = 200
         /\ body r = Json (JArr (map model_to_json fallbackModels)))
  /\ (exists r,
        snd (chat_run string sample_cost String.length unreachable sample_chat)
        = Normal r
        /\ status r = 500).
Proof.
  assert (H1 : upstream_failed
                 (answers upstream_unavailable
                    (upstream_request sample_env (Some "gsk_user"))))
    by (left; split; discriminate).
  assert (H2 : chat_upstream_failed
                 (unreachable
                    (chat_request string sample_cost String.length sample_chat)))
    by exact I.
  split; [exact H1|]. split; [exact H2|].
  exact (upstream_failure_statuses sample_env (answers upstream_unavailable)
           (Some "gsk_user") string sample_cost String.length unreachable
           sample_chat H1 H2).
Defined.

(* ================================================================== *)
(** ** Further properties of [/api/models] *)

(** *** Array methods with a throwing callback *)

Lemma array_some_true f items :
  array_some f items = Normal true ->
  exists m, In m items /\ f m = Normal true.
Proof.
  induction items as [|a items IH]; cbn [array_some]; [discriminate|].
  destruct (f a) as [[|]|e] eqn:E; cbn [cbind]; intros H.
  - exists a. split; [now left|exact E].
  - destruct (IH H) as [m [Hin Hm]]. exists m. split; [now right|exact Hm].
  - discriminate H.
Qed.

Lemma array_some_false f items :
  array_some f items = Normal false ->
  forall m, In m items -> f m = Normal false.
Proof.
  induction items as [|a items IH]; cbn [array_some]; intros H m Hin;
    [destruct Hin|].
  destruct (f a) as [[|]|e] eqn:E; cbn [cbind] in H; try discriminate H.
  destruct Hin as [<-|Hin]; [exact E|now apply IH].
Qed.

Lemma array_filter_normal f items kept :
  array_filter f items = Normal kept ->
  forall m, In m kept -> In m items /\ f m = Normal true.
Proof.
  revert kept. induction items as [|a items IH]; cbn [array_filter];
    intros kept H m Hin.
  - injection H as <-. destruct Hin.
  - destruct (f a) as [keep|e] eqn:E; cbn [cbind] in H; [|discriminate H].
    destruct (array_filter f items) as [kept'|e]; cbn [cbind] in H;
      [|discriminate H].
    injection H as <-. specialize (IH kept' eq_refl m).
    destruct keep.
    + destruct Hin as [<-|Hin]; [split; [now left|exact E]|].
      destruct (IH Hin). split; [now right|assumption].
    + destruct (IH Hin). split; [now right|assumption].
Qed.

Lemma array_filter_throws f items m e :
  In m items -> f m = Throw e ->
  exists e', array_filter f items = Throw e'.
Proof.
  induction items as [|a items IH]; intros Hin Hm; [destruct Hin|].
  cbn [array_filter]. destruct Hin as [->|Hin].
  - rewrite Hm. cbn. eauto.
  - destruct (f a) as [keep|e0]; cbn [cbind]; [|eauto].
    destruct (IH Hin Hm) as [e' ->]. cbn. eauto.
Qed.

Lemma array_map_normal {A} (f : json -> completion A) l res :
  array_map f l = Normal res ->
  length res = length l
  /\ forall y, In y res -> exists x, In x l /\ f x = Normal y.
Proof.
  revert res. induction l as [|a l IH]; cbn [array_map]; intros res H.
  - injection H as <-. split; [reflexivity|intros y []].
  - destruct (f a) as [b|e] eqn:E; cbn [cbind] in H; [|discriminate H].
    destruct (array_map f l) as [res'|e]; cbn [cbind] in H; [|discriminate H].
    injection H as <-. destruct (IH res' eq_refl) as [Hlen Hall].
    split; [cbn; now rewrite Hlen|].
    intros y [<-|Hin].
    + exists a. split; [now left|exact E].
    + destruct (Hall y Hin) as [x [Hx Hfx]]. exists x.
      split; [now right|exact Hfx].
Qed.

(** *** Upstream ids *)

Lemma upstream_ids_In items s :
  In s (upstream_ids items) <-> exists m, In m items /\ string_id m = Some s.
Proof.
  unfold upstream_ids. rewrite in_flat_map. split.
  - intros [m [Hin Hs]]. exists m. split; [exact Hin|].
    destruct (string_id m) as [t|]; [|destruct Hs].
    destruct Hs as [->|[]]. reflexivity.
  - intros [m [Hin Hs]]. exists m. split; [exact Hin|].
    rewrite Hs. now left.
Qed.

(** The callback of [some] answers [true] exactly on the entries whose
    [id] is the string [value]. *)
Lemma id_test_true m value :
  cbind (get_prop m "id") (fun i => Normal (strict_eq_string i value))
  = Normal true ->
  string_id m = Some value.
Proof.
  destruct m; cbn; try discriminate.
  destruct (own_prop "id" props) as [[]|]; cbn; try discriminate.
  intros [= H]. apply String.eqb_eq in H. now subst.
Qed.

Lemma id_test_false m value :
  cbind (get_prop m "id") (fun i => Normal (strict_eq_string i value))
  = Normal false ->
  string_id m <> Some value.
Proof.
  destruct m; cbn; try discriminate.
  destruct (own_prop "id" props) as [[]|]; cbn; try discriminate.
  intros [= H] [= ->]. rewrite String.eqb_refl in H. discriminate H.
Qed.

Lemma model_exists_true md value :
  model_exists md value = Normal true ->
  exists items, md = JArr items /\ In value (upstream_ids items).
Proof.
  unfold model_exists, call_some. destruct md; try discriminate.
  intros H. exists items. split; [reflexivity|].
  apply array_some_true in H. destruct H as [m [Hin Hm]].
  apply upstream_ids_In. exists m. split; [exact Hin|].
  now apply id_test_true.
Qed.

Lemma model_exists_false md value :
  model_exists md value = Normal false ->
  exists items, md = JArr items /\ ~ In value (upstream_ids items).
Proof.
  unfold model_exists, call_some. destruct md; try discriminate.
  intros H. exists items. split; [reflexivity|].
  intros Hin. apply upstream_ids_In in Hin. destruct Hin as [m [Hin Hm]].
  apply (id_test_false m value); [|exact Hm].
  exact (array_some_false _ _ H m Hin).
Qed.

(** A [null] entry makes the test for an id that is not upstream throw. *)
Lemma model_exists_null items value :
  In JNull items ->
  ~ In value (upstream_ids items) ->
  exists e, model_exists (JArr items) value = Throw e.
Proof.
  unfold model_exists, call_some.
  induction items as [|a items IH]; intros Hnull Hnot; [destruct Hnull|].
  cbn [array_some].
  destruct (cbind (get_prop a "id")
              (fun i => Normal (strict_eq_string i value))) as [[|]|e] eqn:E;
    cbn [cbind].
  - exfalso. apply Hnot. apply upstream_ids_In. exists a.
    split; [now left|now apply id_test_true].
  - apply IH.
    + destruct Hnull as [->|Hnull]; [discriminate E|exact Hnull].
    + intros Hin. apply Hnot. apply upstream_ids_In in Hin.
      destruct Hin as [m [Hin Hm]]. apply upstream_ids_In. exists m.
      split; [now right|exact Hm].
  - eauto.
Qed.

(** *** The loop, without assumptions on the entries *)

Lemma predefined_loop_normal entries md models res :
  predefined_loop entries md models = Normal res ->
  res = models ++ map OpenAIModels (filter (table_hit md) (map snd entries))
  /\ forall v, In v (map snd entries) ->
               model_exists md (OpenAIModelID_value v) = Normal (table_hit md v).
Proof.
  revert models. induction entries as [|[k v] entries IH]; intros models H.
  - cbn in H. injection H as <-. split; [cbn; now rewrite app_nil_r|].
    intros v [].
  - cbn [predefined_loop] in H.
    destruct (model_exists md (OpenAIModelID_value v)) as [b|e] eqn:E;
      cbn [cbind] in H; [|discriminate H].
    destruct (IH _ H) as [Hres Hall].
    assert (Hhit : table_hit md v = b) by (unfold table_hit; now rewrite E).
    split.
    + cbn [map snd filter]. rewrite Hhit, Hres.
      destruct b; cbn [map]; [now rewrite <- app_assoc|reflexivity].
    + intros v' [Heq|Hin]; [|now apply Hall].
      cbn [snd] in Heq. subst v'. rewrite Hhit. exact E.
Qed.

Lemma predefined_loop_throws entries md models k v e :
  In (k, v) entries ->
  model_exists md (OpenAIModelID_value v) = Throw e ->
  exists e', predefined_loop entries md models = Throw e'.
Proof.
  revert models. induction entries as [|[k0 v0] entries IH];
    intros models Hin Hv; [destruct Hin|].
  cbn [predefined_loop]. destruct Hin as [[= -> ->]|Hin].
  - rewrite Hv. cbn. eauto.
  - destruct (model_exists md (OpenAIModelID_value v0)); cbn [cbind];
      [|eauto].
    now apply IH.
Qed.

Lemma models_data_inv j items :
  models_data j = Normal (JArr items) -> carries_list j items.
Proof.
  unfold models_data. destruct j; cbn; try discriminate.
  - intros [= ->]. constructor.
  - destruct (own_prop "data" props) as [d|] eqn:E; [|discriminate].
    destruct (truthy (Some d)) eqn:T; [|discriminate].
    intros [= ->]. now constructor.
Qed.

Lemma all_model_ids_complete v : In v all_model_ids.
Proof. destruct v; cbn; tauto. Qed.


Lemma dynamic_model_inv m e :
  dynamic_model m = Normal e ->
  string_id m = Some (id e) /\ e = dynamic_entry (id e).
Proof.
  unfold dynamic_model. destruct m; cbn; try discriminate.
  destruct (own_prop "id" props) as [[]|]; cbn; try discriminate.
  intros [= <-]. split; reflexivity.
Qed.

(** What [list_models] returns when it returns: entries of the table found
    upstream, or, when no id of the table is upstream, entries built from
    the first five matches of the filter. *)
Lemma list_models_inv j models :
  list_models j = Normal models ->
  exists items,
    carries_list j items
    /\ ((models <> []
         /\ models = map OpenAIModels (filter (table_hit (JArr items)) all_model_ids)
         /\ forall v, table_hit (JArr items) v = true <->
                      In (OpenAIModelID_value v) (upstream_ids items))
        \/ ((forall v, ~ In (OpenAIModelID_value v) (upstream_ids items))
            /\ exists kept,
                 array_filter is_available items = Normal kept
                 /\ array_map dynamic_model (firstn 5 kept) = Normal models)).
Proof.
  unfold list_models. intros H.
  destruct (models_data j) as [md|e] eqn:Hmd; cbn [cbind] in H;
    [|discriminate H].
  destruct (predefined_loop OpenAIModelID_entries md []) as [pre|e] eqn:Hpre;
    cbn [cbind] in H; [|discriminate H].
  destruct (predefined_loop_normal _ _ _ _ Hpre) as [Hres Hall].
  change (map snd OpenAIModelID_entries) with all_model_ids in Hres, Hall.
  cbn [app] in Hres.
  assert (Harr : exists items, md = JArr items).
  { specialize (Hall GPT_3_5 (all_model_ids_complete _)).
    unfold model_exists, call_some in Hall. destruct md; try discriminate Hall.
    eauto. }
  destruct Harr as [items ->]. exists items.
  split; [now apply models_data_inv|].
  assert (Hhit : forall v, table_hit (JArr items) v = true <->
                           In (OpenAIModelID_value v) (upstream_ids items)).
  { intros v. specialize (Hall v (all_model_ids_complete v)).
    destruct (table_hit (JArr items) v).
    - apply model_exists_true in Hall. destruct Hall as [items' [[= <-] Hin]].
      tauto.
    - apply model_exists_false in Hall. destruct Hall as [items' [[= <-] Hin]].
      split; [discriminate|tauto]. }
  destruct pre as [|m pre].
  - right. cbn in H. split.
    + intros v Hin. apply Hhit in Hin.
      assert (Hv : In v (filter (table_hit (JArr items)) all_model_ids))
        by (apply filter_In; split; [apply all_model_ids_complete|exact Hin]).
      destruct (filter (table_hit (JArr items)) all_model_ids);
        [destruct Hv|discriminate Hres].
    + unfold available_models, call_filter in H.
      destruct (array_filter is_available items) as [kept|e];
        cbn [cbind] in H; [|discriminate H].
      exists kept. split; [reflexivity|].
      destruct (array_map dynamic_model (firstn 5 kept)); [|discriminate H].
      cbn in H. exact H.
  - left. cbn in H. injection H as <-.
    split; [discriminate|]. split; [exact Hres|exact Hhit].
Qed.

(** Every answer is the fallback, the outcome of the listing code on the
    JSON body of a 200 answer, or the relay of a 401. *)
Lemma run_inversion env net req :
  snd (run env net req) = Normal (models_response fallbackModels)
  \/ (exists key u j models,
        req = KeyBody key /\ net (upstream_request env key) = Normal u
        /\ status u = 200 /\ body u = Json j
        /\ list_models j = Normal models
        /\ snd (run env net req) = Normal (models_response models))
  \/ (exists key u,
        req = KeyBody key /\ net (upstream_request env key) = Normal u
        /\ status u = 401
        /\ snd (run env net req)
           = Normal {| status := 500; statusText := "";
                       headers := headers u; body := body u |}).
Proof.
  destruct req as [|key]; [now left|].
  destruct (net (upstream_request env key)) as [u|e] eqn:Hnet.
  - destruct (Z.eq_dec (status u) 401) as [H401|H401].
    + right. right. exists key, u.
      rewrite (run_unauthorized env net key u Hnet H401). auto.
    + destruct (Z.eq_dec (status u) 200) as [H200|H200].
      * destruct (body u) as [t|j] eqn:Hb.
        -- left. rewrite run_failed; [reflexivity|].
           rewrite Hnet. right. eauto.
        -- rewrite (run_listing _ _ _ _ _ Hnet H200 Hb). cbn [snd].
           destruct (list_models j) as [models|e] eqn:Hl; [|now left].
           right. left. exists key, u, j, models. auto 10.
      * left. rewrite run_failed; [reflexivity|]. rewrite Hnet. left. auto.
  - left. rewrite run_failed; [reflexivity|]. rewrite Hnet. exact I.
Qed.




Lemma carries_list_fun j items items' :
  carries_list j items -> carries_list j items' -> items = items'.
Proof.
  intros H H'. destruct H as [props items Hd|items];
    inversion H' as [props' items'' Hd' Hj|items'' Hj]; subst;
    congruence.
Qed.

(** X1.  Every request is answered, with status 200 or 500, and the status
    is 500 exactly when the upstream answered the request with 401. *)
Theorem models_status_dichotomy env net req :
  exists r,
    snd (run env net req) = Normal r
    /\ (status r = 200 \/ status r = 500)
    /\ (status r = 500
        <-> exists key u,
              req = KeyBody key
              /\ net (upstream_request env key) = Normal u
              /\ status u = 401).
Proof.
  destruct (run_inversion env net req)
    as [H|[[key [u [j [models [Hreq [Hnet [H200 [Hb [Hl H]]]]]]]]]
          |[key [u [Hreq [Hnet [H401 H]]]]]]].
  - exists (models_response fallbackModels). split; [exact H|].
    split; [now left|]. split; [discriminate|].
    intros [key [u [-> [Hnet H401]]]].
    rewrite (run_unauthorized env net key u Hnet H401) in H. discriminate H.
  - exists (models_response models). split; [exact H|].
    split; [now left|]. split; [discriminate|].
    intros [key' [u' [Hreq' [Hnet' H401]]]]. subst req.
    injection Hreq' as <-. rewrite Hnet in Hnet'. injection Hnet' as <-. lia.
  - eexists. split; [exact H|]. split; [now right|].
    split; [intros _; eauto|reflexivity].
Qed.

(** X2.  One invocation sends at most one request upstream (there is no
    retry), and none at all when the request body cannot be parsed: such a
    request is answered with the fallback list. *)
Theorem models_single_fetch env net req :
  (length (fst (run env net req)) <= 1)%nat
  /\ run env net Malformed = ([], Normal (models_response fallbackModels)).
Proof.
  split; [|reflexivity].
  destruct req as [|key]; [cbn; lia|]. rewrite run_log. cbn. lia.
Qed.

(** X3.  The two upstream formats are answered alike: a body that carries
    the list under [data] and a body that is the bare list give the same
    answer. *)
Theorem models_format_independent env net net' key u u' props items :
  net (upstream_request env key) = Normal u ->
  status u = 200 ->
  body u = Json (JObj props) ->
  own_prop "data" props = Some (JArr items) ->
  net' (upstream_request env key) = Normal u' ->
  status u' = 200 ->
  body u' = Json (JArr items) ->
  snd (run env net (KeyBody key)) = snd (run env net' (KeyBody key)).
Proof.
  intros Hnet H200 Hb Hdata Hnet' H200' Hb'.
  rewrite (run_listing env net key u _ Hnet H200 Hb).
  rewrite (run_listing env net' key u' _ Hnet' H200' Hb').
  unfold list_models.
  rewrite (models_data_carries _ items (carries_data props items Hdata)).
  rewrite (models_data_carries _ items (carries_bare items)).
  reflexivity.
Qed.

Lemma models_format_independent_witness :
  snd (run sample_env
           (answers (upstream_ok (map upstream_entry sample_upstream_ids)))
           (KeyBody None))
  = snd (run sample_env
             (answers {| status := 200; statusText := "OK"; headers := [];
                         body := Json (JArr (map upstream_entry
                                               sample_upstream_ids)) |})
             (KeyBody None)).
Proof.
  exact (models_format_independent sample_env
           (answers (upstream_ok (map upstream_entry sample_upstream_ids)))
           (answers {| status := 200; statusText := "OK"; headers := [];
                       body := Json (JArr (map upstream_entry
                                             sample_upstream_ids)) |})
           None
           (upstream_ok (map upstream_entry sample_upstream_ids))
           {| status := 200; statusText := "OK"; headers := [];
              body := Json (JArr (map upstream_entry sample_upstream_ids)) |}
           [ ("object", JStr "list");
             ("data", JArr (map upstream_entry sample_upstream_ids)) ]
           (map upstream_entry sample_upstream_ids)
           eq_refl eq_refl eq_refl eq_refl eq_refl eq_refl eq_refl).
Defined.

(** X4.  When an id of the table is upstream, the answer depends only on
    which ids of the table are upstream: order, repetitions and entries
    unknown to the table make no difference. *)
Theorem models_table_answer_invariant
    env net net' key u u' j j' items items' :
  net (upstream_request env key) = Normal u ->
  status u = 200 ->
  body u = Json j ->
  carries_list j items ->
  Forall (fun m => m <> JNull) items ->
  net' (upstream_request env key) = Normal u' ->
  status u' = 200 ->
  body u' = Json j' ->
  carries_list j' items' ->
  Forall (fun m => m <> JNull) items' ->
  (exists v, In (OpenAIModelID_value v) (upstream_ids items)) ->
  (forall v, In (OpenAIModelID_value v) (upstream_ids items)
             <-> In (OpenAIModelID_value v) (upstream_ids items')) ->
  snd (run env net (KeyBody key)) = snd (run env net' (KeyBody key)).
Proof.
  intros Hnet H200 Hb Hj Hitems Hnet' H200' Hb' Hj' Hitems' [v0 Hv0] Hsame.
  assert (Heq : predefined_models items = predefined_models items').
  { unfold predefined_models. f_equal. apply filter_ext. intros v.
    apply eq_true_iff_eq. rewrite !existsb_eqb_In. apply Hsame. }
  assert (Hne : predefined_models items <> []).
  { intros E.
    assert (Hin : In (OpenAIModels v0) (predefined_models items))
      by (apply In_predefined_models; eauto).
    rewrite E in Hin. exact Hin. }
  rewrite (run_listing env net key u j Hnet H200 Hb).
  rewrite (run_listing env net' key u' j' Hnet' H200' Hb').
  rewrite (list_models_predefined j items Hj Hitems Hne).
  rewrite Heq in Hne.
  rewrite (list_models_predefined j' items' Hj' Hitems' Hne).
  now rewrite Heq.
Qed.

Lemma models_table_answer_invariant_witness :
  snd (run sample_env
           (answers (upstream_ok [ upstream_entry "gpt-4";
                                   upstream_entry "whisper-large-v3";
                                   upstream_entry "gemma2-9b-it";
                                   upstream_entry "gpt-4" ]))
           (KeyBody None))
  = snd (run sample_env
             (answers (upstream_ok [ upstream_entry "gemma2-9b-it";
                                     upstream_entry "gpt-4" ]))
             (KeyBody None)).
Proof.
  refine (models_table_answer_invariant sample_env
            (answers (upstream_ok [ upstream_entry "gpt-4";
                                    upstream_entry "whisper-large-v3";
                                    upstream_entry "gemma2-9b-it";
                                    upstream_entry "gpt-4" ]))
            (answers (upstream_ok [ upstream_entry "gemma2-9b-it";
                                    upstream_entry "gpt-4" ]))
            None _ _ _ _
            [ upstream_entry "gpt-4"; upstream_entry "whisper-large-v3";
              upstream_entry "gemma2-9b-it"; upstream_entry "gpt-4" ]
            [ upstream_entry "gemma2-9b-it"; upstream_entry "gpt-4" ]
            eq_refl eq_refl eq_refl _ _ eq_refl eq_refl eq_refl _ _ _ _).
  - apply carries_data. reflexivity.
  - repeat constructor; discriminate.
  - apply carries_data. reflexivity.
  - repeat constructor; discriminate.
  - exists GPT_4. cbn. tauto.
  - intros v. cbn. destruct v; cbn; intuition discriminate.
Defined.

Lemma list_models_sizes j models :
  list_models j = Normal models ->
  ((length models <= 6)%nat
   /\ forall m, In m models -> exists v, m = OpenAIModels v)
  \/ ((length models <= 5)%nat
      /\ forall m, In m models -> ~ In (id m) table_ids).
Proof.
  intros Hl.
  destruct (list_models_inv j models Hl)
    as [items [_ [[_ [-> _]]|[Hnone [kept [Hkept Hmap]]]]]].
  - left. split.
    + rewrite length_map.
      etransitivity; [apply filter_length_le|reflexivity].
    + intros m Hin. apply in_map_iff in Hin. destruct Hin as [v [<- _]].
      eauto.
  - right. destruct (array_map_normal _ _ _ Hmap) as [Hlen Hall]. split.
    + rewrite Hlen. apply firstn_le_length.
    + intros m Hin. destruct (Hall m Hin) as [x [Hx Hdyn]].
      apply In_firstn in Hx.
      destruct (array_filter_normal _ _ _ Hkept x Hx) as [Hitem _].
      destruct (dynamic_model_inv x m Hdyn) as [Hid _].
      unfold table_ids. intros Htab. apply in_map_iff in Htab.
      destruct Htab as [v [Hv _]]. apply (Hnone v). rewrite Hv.
      apply upstream_ids_In. eauto.
Qed.

(** X5.  Unless it relays a 401, an answer lists at most six models, all
    of them entries of the table (the fallback models are such entries),
    or at most five models, none of which has an id of the table. *)
Theorem models_answer_size env net req :
  (exists models,
      snd (run env net req) = Normal (models_response models)
      /\ (((length models <= 6)%nat
           /\ forall m, In m models -> exists v, m = OpenAIModels v)
          \/ ((length models <= 5)%nat
              /\ forall m, In m models -> ~ In (id m) table_ids)))
  \/ (exists key u,
        req = KeyBody key /\ net (upstream_request env key) = Normal u
        /\ status u = 401).
Proof.
  destruct (run_inversion env net req)
    as [H|[[key [u [j [models [Hreq [Hnet [H200 [Hb [Hl H]]]]]]]]]
          |[key [u [Hreq [Hnet [H401 H]]]]]]].
  - left. exists fallbackModels. split; [exact H|].
    left. split; [cbn; lia|].
    intros m [<-|[<-|[<-|[]]]];
      [exists LLAMA_3_1_8B|exists LLAMA_3_3_70B|exists GEMMA2_9B];
      reflexivity.
  - left. exists models. split; [exact H|].
    exact (list_models_sizes j models Hl).
  - right. eauto.
Qed.



(** *** The derived name *)

Lemma to_upper_not_dash c : to_upper c = "-"%char -> c = "-"%char.
Proof.
  destruct c as [[] [] [] [] [] [] [] []]; vm_compute; intros H;
    first [reflexivity|discriminate H].
Qed.

Lemma to_upper_idempotent c : to_upper (to_upper c) = to_upper c.
Proof. destruct c as [[] [] [] [] [] [] [] []]; reflexivity. Qed.

Lemma is_word_char_to_upper c : is_word_char (to_upper c) = is_word_char c.
Proof. destruct c as [[] [] [] [] [] [] [] []]; reflexivity. Qed.

Lemma replace_dashes_length s :
  String.length (replace_dashes s) = String.length s.
Proof. induction s as [|c s IH]; cbn; [reflexivity|now rewrite IH]. Qed.

Lemma capitalize_from_length b s :
  String.length (capitalize_from b s) = String.length s.
Proof.
  revert b. induction s as [|c s IH]; intros b; cbn;
    [reflexivity|now rewrite IH].
Qed.

Lemma replace_dashes_no_dash s :
  ~ In "-"%char (list_ascii_of_string (replace_dashes s)).
Proof.
  induction s as [|c s IH]; cbn; [tauto|].
  intros [H|H]; [|now apply IH].
  destruct (Ascii.eqb c "-") eqn:E; [discriminate H|].
  apply Ascii.eqb_neq in E. contradiction.
Qed.

Lemma capitalize_from_no_dash b s :
  ~ In "-"%char (list_ascii_of_string s) ->
  ~ In "-"%char (list_ascii_of_string (capitalize_from b s)).
Proof.
  revert b. induction s as [|c s IH]; intros b Hs; cbn; [tauto|].
  cbn in Hs. intros [H|H].
  - apply Hs. left.
    destruct (is_word_char c && negb b); [now apply to_upper_not_dash|exact H].
  - apply (IH (is_word_char c)); tauto.
Qed.

Lemma replace_dashes_fixed s :
  ~ In "-"%char (list_ascii_of_string s) -> replace_dashes s = s.
Proof.
  induction s as [|c s IH]; cbn; intros Hs; [reflexivity|].
  destruct (Ascii.eqb c "-") eqn:E.
  - apply Ascii.eqb_eq in E. tauto.
  - f_equal. apply IH. tauto.
Qed.

Lemma capitalize_from_idempotent b s :
  capitalize_from b (capitalize_from b s) = capitalize_from b s.
Proof.
  revert b. induction s as [|c s IH]; intros b; cbn; [reflexivity|].
  destruct (is_word_char c && negb b) eqn:E.
  - rewrite is_word_char_to_upper, E, to_upper_idempotent.
    f_equal. apply IH.
  - rewrite E. f_equal. apply IH.
Qed.

Lemma dynamic_model_name m e :
  dynamic_model m = Normal e ->
  name e = capitalize_words (replace_dashes (id e)).
Proof.
  intros H. destruct (dynamic_model_inv m e H) as [_ He].
  rewrite He at 1. reflexivity.
Qed.

(** X7.  The name derived for a dynamic entry has the length of the id and
    contains no dash. *)
Theorem dynamic_name_shape m e :
  dynamic_model m = Normal e ->
  String.length (name e) = String.length (id e)
  /\ ~ In "-"%char (list_ascii_of_string (name e)).
Proof.
  intros H. rewrite (dynamic_model_name m e H). unfold capitalize_words.
  split.
  - now rewrite capitalize_from_length, replace_dashes_length.
  - apply capitalize_from_no_dash, replace_dashes_no_dash.
Qed.

Lemma dynamic_name_shape_witness :
  dynamic_model (upstream_entry "meta-llama/llama-guard-4-12b")
  = Normal (dynamic_entry "meta-llama/llama-guard-4-12b")
  /\ String.length (name (dynamic_entry "meta-llama/llama-guard-4-12b"))
     = String.length (id (dynamic_entry "meta-llama/llama-guard-4-12b"))
  /\ ~ In "-"%char
         (list_ascii_of_string
            (name (dynamic_entry "meta-llama/llama-guard-4-12b"))).
Proof.
  split; [reflexivity|].
  exact (dynamic_name_shape (upstream_entry "meta-llama/llama-guard-4-12b")
           (dynamic_entry "meta-llama/llama-guard-4-12b") eq_refl).
Defined.

(** X8.  Deriving a name is idempotent: the replacement chain leaves a
    derived name unchanged. *)
Theorem dynamic_name_stable m e :
  dynamic_model m = Normal e ->
  call_replace_chain (Some (JStr (name e))) = Normal (name e).
Proof.
  intros H. cbn. f_equal.
  destruct (dynamic_name_shape m e H) as [_ Hdash].
  rewrite (replace_dashes_fixed _ Hdash).
  rewrite (dynamic_model_name m e H). unfold capitalize_words.
  apply capitalize_from_idempotent.
Qed.

Lemma dynamic_name_stable_witness :
  dynamic_model (upstream_entry "openai/gpt-oss-120b")
  = Normal (dynamic_entry "openai/gpt-oss-120b")
  /\ call_replace_chain
       (Some (JStr (name (dynamic_entry "openai/gpt-oss-120b"))))
     = Normal (name (dynamic_entry "openai/gpt-oss-120b")).
Proof.
  split; [reflexivity|].
  exact (dynamic_name_stable (upstream_entry "openai/gpt-oss-120b")
           (dynamic_entry "openai/gpt-oss-120b") eq_refl).
Defined.

(** *** Answers that degrade to the fallback *)

Lemma entry_of_member v : exists k, In (k, v) OpenAIModelID_entries.
Proof. destruct v; eexists; cbn; eauto 10. Qed.

Lemma unsearchable_throws m :
  searchable m = false -> exists e, is_available m = Throw e.
Proof.
  unfold is_available. destruct m; cbn; eauto.
  destruct (own_prop "id" props) as [[]|]; cbn; eauto; discriminate.
Qed.

(** X9.  A [null] entry in the upstream list, together with an id of the
    table that is not upstream, makes the loop throw: the answer is the
    fallback list. *)
Theorem models_null_entry_falls_back env net key u j items v :
  net (upstream_request env key) = Normal u ->
  status u = 200 ->
  body u = Json j ->
  carries_list j items ->
  In JNull items ->
  ~ In (OpenAIModelID_value v) (upstream_ids items) ->
  snd (run env net (KeyBody key)) = Normal (models_response fallbackModels).
Proof.
  intros Hnet H200 Hb Hj Hnull Hv.
  rewrite (run_listing env net key u j Hnet H200 Hb). cbn [snd].
  unfold list_models. rewrite (models_data_carries j items Hj). cbn [cbind].
  destruct (model_exists_null items _ Hnull Hv) as [e He].
  destruct (entry_of_member v) as [k Hk].
  destruct (predefined_loop_throws _ (JArr items) [] k v e Hk He) as [e' ->].
  reflexivity.
Qed.

Lemma models_null_entry_falls_back_witness :
  In JNull [upstream_entry "gpt-4"; JNull; upstream_entry "gemma2-9b-it"]
  /\ ~ In (OpenAIModelID_value COMPOUND_BETA)
          (upstream_ids
             [upstream_entry "gpt-4"; JNull; upstream_entry "gemma2-9b-it"])
  /\ snd (run sample_env
              (answers (upstream_ok [ upstream_entry "gpt-4"; JNull;
                                      upstream_entry "gemma2-9b-it" ]))
              (KeyBody None))
     = Normal (models_response fallbackModels).
Proof.
  assert (H1 : In JNull
                 [upstream_entry "gpt-4"; JNull; upstream_entry "gemma2-9b-it"])
    by (right; left; reflexivity).
  assert (H2 : ~ In (OpenAIModelID_value COMPOUND_BETA)
                    (upstream_ids
                       [ upstream_entry "gpt-4"; JNull;
                         upstream_entry "gemma2-9b-it" ])).
  { cbn. intros H. repeat (destruct H as [H|H]; [discriminate H|]). exact H. }
  split; [exact H1|]. split; [exact H2|].
  refine (models_null_entry_falls_back sample_env
            (answers (upstream_ok [ upstream_entry "gpt-4"; JNull;
                                    upstream_entry "gemma2-9b-it" ]))
            None _ _
            [upstream_entry "gpt-4"; JNull; upstream_entry "gemma2-9b-it"]
            COMPOUND_BETA eq_refl eq_refl eq_refl _ H1 H2).
  apply carries_data. reflexivity.
Defined.

(** X10.  A 200 answer whose JSON body carries no list (neither an array
    nor an object with an array under [data]) is answered with the fallback
    list. *)
Theorem models_unlisted_body_falls_back env net key u j :
  net (upstream_request env key) = Normal u ->
  status u = 200 ->
  body u = Json j ->
  (forall items, ~ carries_list j items) ->
  snd (run env net (KeyBody key)) = Normal (models_response fallbackModels).
Proof.
  intros Hnet H200 Hb Hno.
  rewrite (run_listing env net key u j Hnet H200 Hb). cbn [snd].
  destruct (list_models j) as [models|e] eqn:Hl; [|reflexivity].
  destruct (list_models_inv j models Hl) as [items [Hj _]].
  now apply Hno in Hj.
Qed.

Lemma models_unlisted_body_falls_back_witness :
  (forall items,
      ~ carries_list (JObj [ ("object", JStr "list"); ("data", JNull) ]) items)
  /\ snd (run sample_env
              (answers {| status := 200; statusText := "OK"; headers := [];
                          body := Json (JObj [ ("object", JStr "list");
                                               ("data", JNull) ]) |})
              (KeyBody None))
     = Normal (models_response fallbackModels).
Proof.
  assert (H : forall items,
             ~ carries_list (JObj [ ("object", JStr "list"); ("data", JNull) ])
                 items).
  { intros items Hc. inversion Hc as [props items' Hd|]; subst.
    discriminate Hd. }
  split; [exact H|].
  exact (models_unlisted_body_falls_back sample_env
           (answers {| status := 200; statusText := "OK"; headers := [];
                       body := Json (JObj [ ("object", JStr "list");
                                            ("data", JNull) ]) |})
           None _ _ eq_refl eq_refl eq_refl H).
Defined.

(** X11.  When no id of the table is upstream, one entry without an [id]
    that is a string or an array (a missing or numeric id, a [null] or
    scalar entry) spoils the dynamic listing: the answer is the fallback
    list. *)
Theorem models_unsearchable_entry_falls_back env net key u j items m :
  net (upstream_request env key) = Normal u ->
  status u = 200 ->
  body u = Json j ->
  carries_list j items ->
  In m items ->
  searchable m = false ->
  (forall v, ~ In (OpenAIModelID_value v) (upstream_ids items)) ->
  snd (run env net (KeyBody key)) = Normal (models_response fallbackModels).
Proof.
  intros Hnet H200 Hb Hj Hm Hsearch Hnone.
  rewrite (run_listing env net key u j Hnet H200 Hb). cbn [snd].
  destruct (list_models j) as [models|e] eqn:Hl; [|reflexivity].
  exfalso.
  destruct (list_models_inv j models Hl)
    as [items' [Hj' [[Hne [Hmodels Hhit]]|[_ [kept [Hkept _]]]]]];
    rewrite <- (carries_list_fun j items items' Hj Hj') in *.
  - destruct (filter (table_hit (JArr items)) all_model_ids) as [|v l] eqn:E;
      [now subst models|].
    assert (Hv : In v (filter (table_hit (JArr items)) all_model_ids))
      by (rewrite E; now left).
    apply filter_In in Hv. destruct Hv as [_ Hv].
    apply Hhit in Hv. exact (Hnone v Hv).
  - destruct (unsearchable_throws m Hsearch) as [e He].
    destruct (array_filter_throws is_available items m e Hm He) as [e' He'].
    rewrite He' in Hkept. discriminate Hkept.
Qed.

Lemma models_unsearchable_entry_falls_back_witness :
  searchable (JObj [("object", JStr "model")]) = false
  /\ snd (run sample_env
              (answers (upstream_ok [ upstream_entry "llama3-8b-8192";
                                      JObj [("object", JStr "model")] ]))
              (KeyBody None))
     = Normal (models_response fallbackModels).
Proof.
  split; [reflexivity|].
  refine (models_unsearchable_entry_falls_back sample_env
            (answers (upstream_ok [ upstream_entry "llama3-8b-8192";
                                    JObj [("object", JStr "model")] ]))
            None _ _
            [upstream_entry "llama3-8b-8192"; JObj [("object", JStr "model")]]
            (JObj [("object", JStr "model")])
            eq_refl eq_refl eq_refl _ _ eq_refl _).
  - apply carries_data. reflexivity.
  - right. left. reflexivity.
  - intros v H. cbn in H.
    repeat (destruct H as [H|H]; [destruct v; discriminate H|]). exact H.
Defined.

(** *** The upstream request *)

(** X12.  The request sent upstream: the url is the configured host, or
    [https://api.openai.com] when [OPENAI_API_HOST] is unset or empty,
    followed by [/v1/models]; the headers are the content type, one
    [Authorization] header and, exactly when [OPENAI_ORGANIZATION] is set
    and not empty, the organization header with that value. *)
Theorem models_request_shape env net key :
  exists rq auth,
    fst (run env net (KeyBody key)) = [rq]
    /\ url rq
       = (match env_OPENAI_API_HOST env with
          | Some (String c h) => String c h
          | Some EmptyString => "https://api.openai.com"
          | None => "https://api.openai.com"
          end ++ "/v1/models")%string
    /\ request_headers rq
       = [ ("Content-Type", "application/json"); ("Authorization", auth) ]
         ++ match env_OPENAI_ORGANIZATION env with
            | Some (String c o) => [("OpenAI-Organization", String c o)]
            | Some EmptyString => []
            | None => []
            end.
Proof.
  exists (upstream_request env key),
    ("Bearer " ++ bearer_token env key)%string.
  split; [apply run_log|]. split.
  - unfold upstream_request, OPENAI_API_HOST, env_or. cbn [url].
    destruct (env_OPENAI_API_HOST env) as [[|c h]|]; reflexivity.
  - unfold upstream_request, organization_header. cbn [request_headers].
    destruct (env_OPENAI_ORGANIZATION env) as [[|c o]|]; reflexivity.
Qed.

(** X13.  With [DEFAULT_MODEL] unset or empty, the default model is the id
    of the table entry [fallbackModelID], and this entry is among the
    models answered whenever the upstream call fails. *)
Theorem default_model_offered_on_failure env net key v :
  v = None \/ v = Some "" ->
  upstream_failed (net (upstream_request env key)) ->
  exists models,
    snd (run env net (KeyBody key)) = Normal (models_response models)
    /\ In (OpenAIModels fallbackModelID) models
    /\ id (OpenAIModels fallbackModelID) = DEFAULT_MODEL v.
Proof.
  intros Hv Hfail. exists fallbackModels.
  split; [now rewrite (run_failed env net key Hfail)|].
  split; [now left|]. destruct Hv as [->| ->]; reflexivity.
Qed.

Lemma default_model_offered_on_failure_witness :
  upstream_failed (unreachable (upstream_request sample_env None))
  /\ exists models,
       snd (run sample_env unreachable (KeyBody None))
       = Normal (models_response models)
       /\ In (OpenAIModels fallbackModelID) models
       /\ id (OpenAIModels fallbackModelID) = DEFAULT_MODEL None.
Proof.
  split; [exact I|].
  exact (default_model_offered_on_failure sample_env unreachable None None
           (or_introl eq_refl) I).
Defined.

(** *** Only the [id] of an entry matters *)

Lemma is_available_same_id m m' :
  get_prop m "id" = get_prop m' "id" -> is_available m = is_available m'.
Proof. intros H. unfold is_available. now rewrite H. Qed.

Lemma dynamic_model_same_id m m' :
  get_prop m "id" = get_prop m' "id" -> dynamic_model m = dynamic_model m'.
Proof. intros H. unfold dynamic_model. now rewrite H. Qed.

Lemma model_exists_same_ids items items' value :
  map (fun m => get_prop m "id") items = map (fun m => get_prop m "id") items' ->
  model_exists (JArr items) value = model_exists (JArr items') value.
Proof.
  unfold model_exists, call_some. revert items'.
  induction items as [|a items IH]; intros [|a' items'] H; try discriminate H;
    [reflexivity|].
  cbn [map] in H. injection H as Ha Hrest.
  cbn [array_some]. rewrite Ha, (IH items' Hrest). reflexivity.
Qed.

Lemma predefined_loop_same_ids entries items items' models :
  map (fun m => get_prop m "id") items = map (fun m => get_prop m "id") items' ->
  predefined_loop entries (JArr items) models
  = predefined_loop entries (JArr items') models.
Proof.
  intros H. revert models.
  induction entries as [|[k v] entries IH]; intros models; [reflexivity|].
  cbn [predefined_loop]. rewrite (model_exists_same_ids items items' _ H).
  destruct (model_exists (JArr items') (OpenAIModelID_value v)); cbn [cbind];
    [apply IH|reflexivity].
Qed.

Lemma array_filter_same_ids items items' :
  map (fun m => get_prop m "id") items = map (fun m => get_prop m "id") items' ->
  match array_filter is_available items, array_filter is_available items' with
  | Normal kept, Normal kept' =>
      map (fun m => get_prop m "id") kept
      = map (fun m => get_prop m "id") kept'
  | Throw e, Throw e' => e = e'
  | _, _ => False
  end.
Proof.
  revert items'.
  induction items as [|a items IH]; intros [|a' items'] H; try discriminate H;
    [reflexivity|].
  cbn [map] in H. injection H as Ha Hrest. specialize (IH items' Hrest).
  cbn [array_filter]. rewrite (is_available_same_id a a' Ha).
  destruct (is_available a') as [keep|e]; cbn [cbind]; [|reflexivity].
  destruct (array_filter is_available items) as [kept|e],
           (array_filter is_available items') as [kept'|e'];
    cbn [cbind]; try exact IH.
  destruct keep; cbn [map]; congruence.
Qed.

Lemma array_map_same_ids l l' :
  map (fun m => get_prop m "id") l = map (fun m => get_prop m "id") l' ->
  array_map dynamic_model l = array_map dynamic_model l'.
Proof.
  revert l'. induction l as [|a l IH]; intros [|a' l'] H; try discriminate H;
    [reflexivity|].
  cbn [map] in H. injection H as Ha Hrest.
  cbn [array_map]. rewrite (dynamic_model_same_id a a' Ha), (IH l' Hrest).
  reflexivity.
Qed.

Lemma list_models_same_ids items items' :
  map (fun m => get_prop m "id") items = map (fun m => get_prop m "id") items' ->
  list_models (JArr items) = list_models (JArr items').
Proof.
  intros H. unfold list_models. cbn [models_data get_prop cbind].
  rewrite (predefined_loop_same_ids _ items items' [] H).
  destruct (predefined_loop OpenAIModelID_entries (JArr items') []) as [pre|e];
    cbn [cbind]; [|reflexivity].
  destruct (length pre =? 0)%nat; [|reflexivity].
  unfold available_models, call_filter.
  pose proof (array_filter_same_ids items items' H) as Hf.
  destruct (array_filter is_available items) as [kept|e],
           (array_filter is_available items') as [kept'|e'];
    cbn [cbind]; try contradiction; [|now subst].
  assert (Hfirst : map (fun m => get_prop m "id") (firstn 5 kept)
                   = map (fun m => get_prop m "id") (firstn 5 kept'))
    by (now rewrite <- !firstn_map, Hf).
  now rewrite (array_map_same_ids _ _ Hfirst).
Qed.

(** X14.  Only the [id] of an upstream entry matters: two upstream lists
    whose entries read the same [id], position by position, are answered
    alike, whatever else the entries hold. *)
Theorem models_only_ids_matter env net net' key u u' j j' items items' :
  net (upstream_request env key) = Normal u ->
  status u = 200 ->
  body u = Json j ->
  carries_list j items ->
  net' (upstream_request env key) = Normal u' ->
  status u' = 200 ->
  body u' = Json j' ->
  carries_list j' items' ->
  map (fun m => get_prop m "id") items = map (fun m => get_prop m "id") items' ->
  snd (run env net (KeyBody key)) = snd (run env net' (KeyBody key)).
Proof.
  intros Hnet H200 Hb Hj Hnet' H200' Hb' Hj' Hids.
  rewrite (run_listing env net key u j Hnet H200 Hb).
  rewrite (run_listing env net' key u' j' Hnet' H200' Hb').
  assert (Hbare : forall k l, carries_list k l ->
                              list_models k = list_models (JArr l)).
  { intros k l Hk. unfold list_models.
    rewrite (models_data_carries k l Hk).
    now rewrite (models_data_carries _ l (carries_bare l)). }
  rewrite (Hbare j items Hj), (Hbare j' items' Hj').
  now rewrite (list_models_same_ids items items' Hids).
Qed.

Lemma models_only_ids_matter_witness :
  snd (run sample_env
           (answers (upstream_ok
                       [ JObj [ ("id", JStr "llama3-8b-8192");
                                ("owned_by", JStr "Meta");
                                ("context_window", JNum 8192) ];
                         JObj [ ("active", JBool true);
                                ("id", JStr "gemma-7b-it") ] ]))
           (KeyBody None))
  = snd (run sample_env
             (answers (upstream_ok [ upstream_entry "llama3-8b-8192";
                                     upstream_entry "gemma-7b-it" ]))
             (KeyBody None)).
Proof.
  refine (models_only_ids_matter sample_env
            (answers (upstream_ok
                        [ JObj [ ("id", JStr "llama3-8b-8192");
                                 ("owned_by", JStr "Meta");
                                 ("context_window", JNum 8192) ];
                          JObj [ ("active", JBool true);
                                 ("id", JStr "gemma-7b-it") ] ]))
            (answers (upstream_ok [ upstream_entry "llama3-8b-8192";
                                    upstream_entry "gemma-7b-it" ]))
            None _ _ _ _
            [ JObj [ ("id", JStr "llama3-8b-8192"); ("owned_by", JStr "Meta");
                     ("context_window", JNum 8192) ];
              JObj [ ("active", JBool true); ("id", JStr "gemma-7b-it") ] ]
            [ upstream_entry "llama3-8b-8192"; upstream_entry "gemma-7b-it" ]
            eq_refl eq_refl eq_refl _ eq_refl eq_refl eq_refl _ eq_refl).
  - apply carries_data. reflexivity.
  - apply carries_data. reflexivity.
Defined.

(** *** The constants *)

(** X15.  Because the defaults are chosen with [||], each of the three
    constants is the value of its environment variable when this is set
    and not empty, and the built-in default both when the variable is
    unset and when it is set but empty; hence none of them is ever the
    empty string. *)
Theorem constants_never_empty env (model_var prompt_var : option string) :
  OPENAI_API_HOST env
  = match env_OPENAI_API_HOST env with
    | Some (String c s) => String c s
    | Some EmptyString => "https://api.openai.com"
    | None => "https://api.openai.com"
    end
  /\ DEFAULT_MODEL model_var
     = match model_var with
       | Some (String c s) => String c s
       | Some EmptyString => "llama-3.1-8b-instant"
       | None => "llama-3.1-8b-instant"
       end
  /\ DEFAULT_SYSTEM_PROMPT prompt_var
     = match prompt_var with
       | Some (String c s) => String c s
       | Some EmptyString =>
           "You are a helpful AI assistant. Follow the user's instructions carefully. Respond using markdown."
       | None =>
           "You are a helpful AI assistant. Follow the user's instructions carefully. Respond using markdown."
       end
  /\ OPENAI_API_HOST env <> ""
  /\ DEFAULT_MODEL model_var <> ""
  /\ DEFAULT_SYSTEM_PROMPT prompt_var <> "".
Proof.
  unfold OPENAI_API_HOST, DEFAULT_MODEL, DEFAULT_SYSTEM_PROMPT, env_or.
  destruct (env_OPENAI_API_HOST env) as [[|c h]|], model_var as [[|d s]|],
    prompt_var as [[|e t]|];
    cbn; repeat split; discriminate.
Qed.
